(** * pdf-to-text: a shallow embedding of [scripts/pdf-to-text.py]

    The script opens a PDF through PyMuPDF ([fitz]), collects the stripped
    text of every page under Markdown page headings, and writes the result
    to a [.md] file.  This development embeds the script as a function in a
    state-and-exception monad over an explicit world (file system plus the
    table of library document handles) and proves the properties of the
    conversion routine and of its command-line entry point.

    Modelling conventions
    - A Python [str] is a list of Unicode code points ([N], below 0x110000).
    - File contents are lists of bytes ([N], below 256).
    - Paths name files syntactically: two different path strings are two
      different files (no normalisation, links or directories), and the
      platform is POSIX ([os.path] is [posixpath], [os.linesep] is a single
      line feed).
    - Everything the script does not decide itself is a field of [env]:
      what the PDF library makes of a file, and whether a destination can be
      opened for writing.
    - Once the destination is open, the write fails only when the text
      cannot be encoded as UTF-8; a device that fills up during the write
      is not modelled.  Standard output and standard error accept every
      string; [stdout] and [stderr] record what the script itself prints,
      not what the library may add to the streams. *)

From Stdlib Require Import NArith DecimalNat Ascii String.
From stdpp Require Import gmap list option sorting.

Local Open Scope N_scope.
Local Open Scope list_scope.

(** ** Python strings *)

Module Py.

(** A Python [str], as its sequence of code points. *)
Definition str := list N.

(** The bytes of a file. *)
Definition bytes := list N.

(** A string literal of the source (ASCII only in this script). *)
Definition lit (s : string) : str := N_of_ascii <$> list_ascii_of_string s.

(** [str.isspace] on one character, CPython's [_PyUnicode_IsWhitespace]. *)
Definition isspace (c : N) : bool :=
  ((0x09 <=? c) && (c <=? 0x0D))
  || ((0x1C <=? c) && (c <=? 0x20))
  || (c =? 0x85) || (c =? 0xA0) || (c =? 0x1680)
  || ((0x2000 <=? c) && (c <=? 0x200A))
  || (c =? 0x2028) || (c =? 0x2029) || (c =? 0x202F)
  || (c =? 0x205F) || (c =? 0x3000).

(** [s.lstrip()], [s.rstrip()] and [s.strip()] without argument. *)
Fixpoint lstrip (s : str) : str :=
  match s with
  | [] => []
  | c :: s' => if isspace c then lstrip s' else s
  end.

Definition rstrip (s : str) : str := reverse (lstrip (reverse s)).

Definition strip (s : str) : str := rstrip (lstrip s).

(** The line feed, ["\n"] in the source. *)
Definition LF : str := [10].

(** Truth value of a string: [if text:] holds for the non-empty ones. *)
Definition truthy (s : str) : bool :=
  match s with [] => false | _ :: _ => true end.

(** [sep.join(xs)]. *)
Fixpoint join (sep : str) (xs : list str) : str :=
  match xs with
  | [] => []
  | [x] => x
  | x :: xs' => x ++ sep ++ join sep xs'
  end.

(** [s.split("\n")]: the lines of [s], cut at every line feed. *)
Fixpoint split_lines (s : str) : list str :=
  match s with
  | [] => [[]]
  | c :: s' =>
      if c =? 10 then [] :: split_lines s'
      else match split_lines s' with
           | line :: lines => (c :: line) :: lines
           | [] => [[c]]
           end
  end.

(** Decimal digits of a [Decimal.uint], most significant first. *)
Fixpoint uint_digits (d : Decimal.uint) : str :=
  match d with
  | Decimal.Nil => []
  | Decimal.D0 d => 48 :: uint_digits d
  | Decimal.D1 d => 49 :: uint_digits d
  | Decimal.D2 d => 50 :: uint_digits d
  | Decimal.D3 d => 51 :: uint_digits d
  | Decimal.D4 d => 52 :: uint_digits d
  | Decimal.D5 d => 53 :: uint_digits d
  | Decimal.D6 d => 54 :: uint_digits d
  | Decimal.D7 d => 55 :: uint_digits d
  | Decimal.D8 d => 56 :: uint_digits d
  | Decimal.D9 d => 57 :: uint_digits d
  end.

(** [str(n)] (and [f"{n}"]) for a non-negative [int]. *)
Definition str_of_nat (n : nat) : str := uint_digits (Nat.to_uint n).

(** [x in s] for strings: [x] occurs as a contiguous substring of [s]. *)
Definition contains (x s : str) : Prop := exists pre suf, s = pre ++ x ++ suf.

(** [s.endswith(x)]. *)
Definition endswith (s x : str) : Prop := exists pre, s = pre ++ x.

(** [s.startswith(x)]. *)
Definition startswith (s x : str) : Prop := exists suf, s = x ++ suf.

End Py.

#[global] Arguments Py.lit : simpl never.
#[global] Arguments Py.str_of_nat : simpl never.

(** ** [os.path] on POSIX ([posixpath] and [genericpath] of CPython) *)

Module OsPath.
Import Py.

Definition sep : N := 47.     (* "/" *)
Definition extsep : N := 46.  (* "." *)

(** [s.rfind(c)] for a one-character [c]: the highest index holding [c],
    or [-1].  The scan runs left to right and remembers the last hit. *)
Fixpoint rfind_from (c : N) (s : str) (i last : Z) : Z :=
  match s with
  | [] => last
  | x :: s' => rfind_from c s' (i + 1)%Z (if x =? c then i else last)
  end.

Definition rfind (c : N) (s : str) : Z := rfind_from c s 0%Z (-1)%Z.

(** Slices [p[:k]] and [p[k:]] for [0 <= k]. *)
Definition slice_to (p : str) (k : Z) : str := take (Z.to_nat k) p.
Definition slice_from (p : str) (k : Z) : str := drop (Z.to_nat k) p.

(** [posixpath.basename]: [i = p.rfind('/') + 1; return p[i:]]. *)
Definition basename (p : str) : str :=
  let i := (rfind sep p + 1)%Z in
  slice_from p i.

(** The [while filenameIndex < dotIndex] loop of [genericpath._splitext],
    run over the characters [p[filenameIndex:dotIndex]] it inspects: it
    answers [true] as soon as one of them is not a dot. *)
Fixpoint has_non_dot (name : str) : bool :=
  match name with
  | [] => false
  | c :: name' => if negb (c =? extsep) then true else has_non_dot name'
  end.

(** [posixpath.splitext], that is [genericpath._splitext(p, '/', None, '.')]. *)
Definition splitext (p : str) : str * str :=
  let sepIndex := rfind sep p in
  let dotIndex := rfind extsep p in
  if (sepIndex <? dotIndex)%Z then
    let filenameIndex := (sepIndex + 1)%Z in
    if has_non_dot (slice_to (slice_from p filenameIndex) (dotIndex - filenameIndex))
    then (slice_to p dotIndex, slice_from p dotIndex)
    else (p, [])
  else (p, []).

End OsPath.

(** ** Exceptions, the PDF library and the world *)

(** The exception classes the script can meet; all derive from
    [Exception], so [main]'s handler catches each of them. *)
Inductive exn_class :=
  | FileNotFoundError     (* raised by the script itself, or by [open] *)
  | OSError               (* any other failure of [open(path, "w")] *)
  | UnicodeEncodeError    (* [f.write] of text that UTF-8 cannot encode *)
  | FitzError.            (* whatever the PDF library raises *)

(** An exception: its class and [str(e)]. *)
Record exn := Exn { exn_type : exn_class; exn_str : Py.str }.

(** A page of an opened document, as the script sees it: [page.get_text()]
    returns the page's text or raises. *)
Inductive Page :=
  | PageText (text : Py.str)
  | PageError (e : exn).

(** A [fitz.Document] object: the file it was opened from, its pages and
    whether [close()] has been called on it. *)
Record Document := {
  doc_name : Py.str;
  doc_pages : list Page;
  is_closed : bool
}.

(** The world the script runs in: the files by path, and every document
    object the library has handed out so far (a handle is an index). *)
Record world := World {
  files : gmap Py.str Py.bytes;
  docs : list Document
}.

(** What the script does not decide.
    - [fitz_parse path data] is the library opening [path], whose content
      is [data] ([None] when nothing is there): the pages, or the
      exception [fitz.open] raises.
    - [open_w path] is the exception [open(path, "w")] raises, if any
      (missing parent directory, permissions, ...). *)
Record env := Env {
  fitz_parse : Py.str -> option Py.bytes -> exn + list Page;
  open_w : Py.str -> option exn
}.

(** ** Writing text as UTF-8 *)

Module Utf8.
Import Py.

(** Lone surrogates are the code points a Python [str] may hold and UTF-8
    refuses. *)
Definition is_surrogate (c : N) : bool := (0xD800 <=? c) && (c <=? 0xDFFF).

(** The UTF-8 bytes of one code point that is not a surrogate. *)
Definition encode_char (c : N) : bytes :=
  if c <? 0x80 then [c]
  else if c <? 0x800 then
    [N.lor 0xC0 (N.shiftr c 6); N.lor 0x80 (N.land c 0x3F)]
  else if c <? 0x10000 then
    [N.lor 0xE0 (N.shiftr c 12);
     N.lor 0x80 (N.land (N.shiftr c 6) 0x3F);
     N.lor 0x80 (N.land c 0x3F)]
  else
    [N.lor 0xF0 (N.shiftr c 18);
     N.lor 0x80 (N.land (N.shiftr c 12) 0x3F);
     N.lor 0x80 (N.land (N.shiftr c 6) 0x3F);
     N.lor 0x80 (N.land c 0x3F)].

(** Index of the first surrogate of [s], counting from [i]. *)
Fixpoint find_surrogate (i : nat) (s : str) : option (nat * str) :=
  match s with
  | [] => None
  | c :: s' => if is_surrogate c then Some (i, s) else find_surrogate (S i) s'
  end.

(** Length of the run of surrogates [s] starts with. *)
Fixpoint surrogate_run (s : str) : nat :=
  match s with
  | c :: s' => if is_surrogate c then S (surrogate_run s') else 0%nat
  | [] => 0%nat
  end.

Definition hex_digit (d : N) : N := if d <? 10 then 48 + d else 87 + d.

(** [c] as in ['\udc80']: backslash, [u], four lower-case hex digits. *)
Definition escape_u (c : N) : str :=
  lit "\u" ++ [hex_digit (N.land (N.shiftr c 12) 0xF);
               hex_digit (N.land (N.shiftr c 8) 0xF);
               hex_digit (N.land (N.shiftr c 4) 0xF);
               hex_digit (N.land c 0xF)].

(** [str(e)] of the [UnicodeEncodeError] the strict codec raises for the
    run of surrogates at [start], [run] characters long, the first being
    [c]. *)
Definition encode_error_str (start run : nat) (c : N) : str :=
  if (run =? 1)%nat then
    lit "'utf-8' codec can't encode character '" ++ escape_u c
      ++ lit "' in position " ++ str_of_nat start
      ++ lit ": surrogates not allowed"
  else
    lit "'utf-8' codec can't encode characters in position "
      ++ str_of_nat start ++ lit "-" ++ str_of_nat (start + run - 1)
      ++ lit ": surrogates not allowed".

(** [s.encode("utf-8")] with the default strict error handling. *)
Definition encode (s : str) : exn + bytes :=
  match find_surrogate 0 s with
  | Some (start, rest) =>
      inl (Exn UnicodeEncodeError
             (encode_error_str start (surrogate_run rest) (hd 0 rest)))
  | None => inr (flat_map encode_char s)
  end.

End Utf8.

(** ** The state-and-exception monad of the script *)

(** A computation reads and changes the world, and either returns a value
    or raises. *)
Definition M (A : Type) : Type := world -> (exn + A) * world.

#[global] Instance M_ret : MRet M := fun A x w => (inr x, w).

#[global] Instance M_bind : MBind M := fun A B f m w =>
  match m w with
  | (inl e, w') => (inl e, w')
  | (inr x, w') => f x w'
  end.

Definition raise {A} (e : exn) : M A := fun w => (inl e, w).

(** ** The operations the script calls *)

Section Script.
Import Py.
Variable E : env.

(** [os.path.exists(path)]. *)
Definition os_path_exists (path : str) : M bool :=
  fun w => (inr (bool_decide (is_Some (files w !! path))), w).

(** [fitz.open(path)]: the library reads the file; on success a new open
    document object joins the table and its handle is returned. *)
Definition fitz_open (path : str) : M nat :=
  fun w =>
    match fitz_parse E path (files w !! path) with
    | inl e => (inl e, w)
    | inr pages =>
        let h := length (docs w) in
        (inr h, World (files w) (docs w ++ [Build_Document path pages false]))
    end.

(** The pages of the document behind handle [h] ([len(doc)] is the length
    of this list, iterating [doc] walks it). *)
Definition doc_page_list (h : nat) : M (list Page) :=
  fun w => (inr (from_option doc_pages [] (docs w !! h)), w).

(** [page.get_text()]. *)
Definition get_text (page : Page) : M str :=
  match page with
  | PageText text => mret text
  | PageError e => raise e
  end.

(** [doc.close()]. *)
Definition doc_close (h : nat) : M unit :=
  fun w =>
    (inr (),
     World (files w)
           (alter (fun d => Build_Document (doc_name d) (doc_pages d) true) h
                  (docs w))).

(** [with open(path, "w", encoding="utf-8") as f: f.write(content)].
    Opening creates the file or truncates it; the write encodes the whole
    text before any byte reaches the file, so a text UTF-8 cannot encode
    leaves the file empty; leaving the [with] block closes the file. *)
Definition write_text (path content : str) : M unit :=
  fun w =>
    match open_w E path with
    | Some e => (inl e, w)
    | None =>
        let truncated := World (<[path := []]> (files w)) (docs w) in
        match Utf8.encode content with
        | inl e => (inl e, truncated)
        | inr data => (inr (), World (<[path := data]> (files w)) (docs w))
        end
    end.

(** ** [extract_pdf_text] *)

(** The body of [for i, page in enumerate(doc)], from index [i] on, with
    the list [lines] it appends to. *)
Fixpoint page_loop (i : nat) (pages : list Page) (lines : list str)
  : M (list str) :=
  match pages with
  | [] => mret lines
  | page :: pages' =>
      raw ← get_text page;
      let text := strip raw in
      let lines :=
        if truthy text then
          lines ++ [lit "---"] ++ [lit "## Page " ++ str_of_nat (i + 1)]
                ++ [[]] ++ [text] ++ [[]]
        else lines in
      page_loop (S i) pages' lines
  end.

Definition extract_pdf_text (pdf_path : str) (output_path : option str)
  : M str :=
  found ← os_path_exists pdf_path;
  if negb found then
    raise (Exn FileNotFoundError (lit "PDF not found: " ++ pdf_path))
  else
    (* Default output path: same name with .md extension *)
    let output_path :=
      match output_path with
      | None => (OsPath.splitext pdf_path).1 ++ lit ".md"
      | Some p => p
      end in
    doc ← fitz_open pdf_path;
    pages ← doc_page_list doc;
    let lines := [] in
    let lines := lines ++ [lit "# " ++ OsPath.basename pdf_path] in
    let lines := lines ++ [[]] in
    let lines := lines ++ [lit "*" ++ str_of_nat (length pages) ++ lit " pages*"] in
    let lines := lines ++ [[]] in
    lines ← page_loop 0 pages lines;
    doc_close doc;;
    let content := join LF lines in
    write_text output_path content;;
    mret output_path.

(** ** The command line *)

(** What a run of the process leaves behind: both output streams and the
    exit status. *)
Record process := Process {
  stdout : str;
  stderr : str;
  exit_code : nat
}.

(** [print(s)] and [print(s, file=sys.stderr)] add [s] and a line feed. *)
Definition println (s : str) : str := s ++ [10].

(** [main()], on [sys.argv]. *)
Definition main (argv : list str) (w : world) : process * world :=
  if (length argv <? 2)%nat then
    (Process [] (println (lit "Usage: pdf-to-text.py <input.pdf> [output.md]")) 1, w)
  else
    let pdf_path := nth 1 argv [] in
    let output_path :=
      if (2 <? length argv)%nat then Some (nth 2 argv []) else None in
    match extract_pdf_text pdf_path output_path w with
    | (inr result_path, w') => (Process (println result_path) [] 0, w')
    | (inl e, w') => (Process [] (println (lit "ERROR: " ++ exn_str e)) 1, w')
    end.

(** The whole script: the guarded [import fitz], then [main()]. *)
Definition script (fitz_installed : bool) (argv : list str) (w : world)
  : process * world :=
  if fitz_installed then main argv w
  else
    (Process [] (println (lit "ERROR: PyMuPDF not installed. Run: pip install pymupdf")) 1, w).

End Script.

(** ** The output format, in the words of the specification *)

Section Format.
Import Py.

(** The path the result goes to: the one given, or the input path with
    its extension replaced by [.md]. *)
Definition resolved_output (pdf_path : str) (output_path : option str) : str :=
  match output_path with
  | Some p => p
  | None => (OsPath.splitext pdf_path).1 ++ lit ".md"
  end.

(** The four lines every output starts with: the title with the base name
    [B], a blank line, the page count [N] in italics, a blank line. *)
Definition header_lines (B : str) (N : nat) : list str :=
  [lit "# " ++ B; []; lit "*" ++ str_of_nat N ++ lit " pages*"; []].

(** The heading of the page at zero-based position [i]. *)
Definition page_heading (i : nat) : str := lit "## Page " ++ str_of_nat (S i).

(** What the page at zero-based position [i] with extracted text [text]
    contributes: nothing when its trimmed text is empty; otherwise a rule,
    the heading with the 1-based index, a blank line, the trimmed text and
    a blank line. *)
Definition page_block (i : nat) (text : str) : list str :=
  match strip text with
  | [] => []
  | trimmed => [lit "---"; page_heading i; []; trimmed; []]
  end.

(** The lines of the document with base name [B], page count [N] and page
    texts [texts], pages in ascending order. *)
Definition spec_lines (B : str) (N : nat) (texts : list str) : list str :=
  header_lines B N ++ concat (imap page_block texts).

(** The Markdown text: the lines joined by line feeds. *)
Definition spec_markdown (B : str) (N : nat) (texts : list str) : str :=
  join LF (spec_lines B N texts).

(** The zero-based positions of the pages whose trimmed text is not empty,
    in ascending order. *)
Definition page_has_text (texts : list str) (i : nat) : bool :=
  from_option (fun t => truthy (strip t)) false (texts !! i).

Definition emitted_pages (texts : list str) : list nat :=
  filter (fun i => page_has_text texts i = true) (seq 0 (length texts)).

(** The block of an emitted page. *)
Definition emitted_block (texts : list str) (i : nat) : list str :=
  [lit "---"; page_heading i; []; strip (texts !!! i); []].

(** The headings of the pages of a document with [n] pages. *)
Definition document_headings (n : nat) : list str := page_heading <$> seq 0 n.

(** The line [h] is neither a line of the title of the document with
    base name [B] nor a line of the trimmed text of any page. *)
Definition not_in_texts (h B : str) (texts : list str) : Prop :=
  (h ∉ split_lines (lit "# " ++ B))
  /\ forall t, t ∈ texts -> h ∉ split_lines (strip t).

(** An extension as [splitext] yields it: empty, or a dot followed by
    characters that are neither dots nor slashes. *)
Definition is_extension (ext : str) : Prop :=
  ext = [] \/
  exists e, ext = OsPath.extsep :: e /\ (OsPath.extsep ∉ e) /\ (OsPath.sep ∉ e).

End Format.

(** ** The exits of [extract_pdf_text]

    The routine has six ways out, in source order: the [raise] of the
    existence check, an exception from [fitz.open], an exception from some
    page's [get_text], an exception from [open(output_path, "w")], an
    exception from [f.write], and the [return].  [outcome] lists, for each,
    the condition under which it is taken, the result and the world it
    leaves; [extract_pdf_text_outcome] below proves that the routine always
    ends in one of them. *)

Section Outcome.
Import Py.
Variable E : env.
Variables (pdf_path : str) (output_path : option str) (w : world).

(** The table of documents after [fitz.open] handed out one more. *)
Definition with_document (pages : list Page) (closed : bool) : list Document :=
  docs w ++ [Build_Document pdf_path pages closed].

Inductive outcome : (exn + str) * world -> Prop :=
  | exit_not_found :
      files w !! pdf_path = None ->
      outcome (inl (Exn FileNotFoundError (lit "PDF not found: " ++ pdf_path)), w)
  | exit_open_raises data e :
      files w !! pdf_path = Some data ->
      fitz_parse E pdf_path (Some data) = inl e ->
      outcome (inl e, w)
  | exit_page_raises data texts e rest :
      files w !! pdf_path = Some data ->
      fitz_parse E pdf_path (Some data)
        = inr ((PageText <$> texts) ++ PageError e :: rest) ->
      outcome (inl e,
               World (files w)
                     (with_document ((PageText <$> texts) ++ PageError e :: rest) false))
  | exit_destination_raises data texts e :
      files w !! pdf_path = Some data ->
      fitz_parse E pdf_path (Some data) = inr (PageText <$> texts) ->
      open_w E (resolved_output pdf_path output_path) = Some e ->
      outcome (inl e, World (files w) (with_document (PageText <$> texts) true))
  | exit_write_raises data texts e :
      files w !! pdf_path = Some data ->
      fitz_parse E pdf_path (Some data) = inr (PageText <$> texts) ->
      open_w E (resolved_output pdf_path output_path) = None ->
      Utf8.encode (spec_markdown (OsPath.basename pdf_path) (length texts) texts)
        = inl e ->
      outcome (inl e,
               World (<[resolved_output pdf_path output_path := []]> (files w))
                     (with_document (PageText <$> texts) true))
  | exit_return data texts encoded :
      files w !! pdf_path = Some data ->
      fitz_parse E pdf_path (Some data) = inr (PageText <$> texts) ->
      open_w E (resolved_output pdf_path output_path) = None ->
      Utf8.encode (spec_markdown (OsPath.basename pdf_path) (length texts) texts)
        = inr encoded ->
      outcome (inr (resolved_output pdf_path output_path),
               World (<[resolved_output pdf_path output_path := encoded]> (files w))
                     (with_document (PageText <$> texts) true)).

End Outcome.

(** ** A small world to run the script in *)

Module Sample.
Import Py.

(** The files of the sample world, told apart by their bytes. *)
Definition report_bytes : bytes := lit "%PDF-1.7 report".
Definition damaged_bytes : bytes := lit "%PDF-1.7 damaged".
Definition odd_bytes : bytes := lit "%PDF-1.7 odd".
Definition notes_bytes : bytes := lit "not a PDF at all".

(** A PDF library: the report has three pages, the second one blank; the
    second page of the damaged file cannot be read; the only page of the
    odd file carries a lone surrogate; anything else does not open. *)
Definition library (path : str) (data : option bytes) : exn + list Page :=
  if decide (data = Some report_bytes) then
    inr [PageText (lit "Hello" ++ LF); PageText (lit "  " ++ LF); PageText (lit " World")]
  else if decide (data = Some damaged_bytes) then
    inr [PageText (lit "Intro"); PageError (Exn FitzError (lit "cannot extract text"))]
  else if decide (data = Some odd_bytes) then
    inr [PageText [0xD800]]
  else
    inl (Exn FitzError (lit "Failed to open file")).

(** Every destination can be opened, except below a directory that does
    not exist. *)
Definition destination (path : str) : option exn :=
  if decide (path = lit "/nowhere/out.md") then
    Some (Exn FileNotFoundError
            (lit "[Errno 2] No such file or directory: '/nowhere/out.md'"))
  else None.

Definition sample_env : env := Env library destination.

Definition sample_world : world :=
  World (list_to_map [(lit "report.pdf", report_bytes);
                      (lit "damaged.pdf", damaged_bytes);
                      (lit "odd.pdf", odd_bytes);
                      (lit "notes.txt", notes_bytes)])
        [].

End Sample.

(** * Facts about the string operations *)

Section PyFacts.
Import Py.

Lemma truthy_nonempty (s : str) : truthy s = true <-> s <> [].
Proof. destruct s; simpl; split; congruence. Qed.

Lemma lstrip_head (s : str) c r : lstrip s = c :: r -> isspace c = false.
Proof.
  induction s as [|x s IH]; simpl; [discriminate|].
  destruct (isspace x) eqn:Hx; [exact IH|].
  intros [= <- _]. exact Hx.
Qed.

(** A non-empty [rstrip] result ends with a character that is not white
    space; so does a non-empty [strip] result. *)
Lemma rstrip_last (s : str) :
  rstrip s <> [] -> exists body c, rstrip s = body ++ [c] /\ isspace c = false.
Proof.
  unfold rstrip. destruct (lstrip (reverse s)) as [|c r] eqn:Hl; [done|].
  intros _. exists (reverse r), c. split.
  - by rewrite reverse_cons.
  - by eapply lstrip_head.
Qed.

Lemma strip_last (s : str) :
  strip s <> [] -> exists body c, strip s = body ++ [c] /\ isspace c = false.
Proof. apply rstrip_last. Qed.

Lemma isspace_LF : isspace 10 = true.
Proof. reflexivity. Qed.

Lemma join_snoc sep (xs : list str) (x : str) :
  xs <> [] -> join sep (xs ++ [x]) = join sep xs ++ sep ++ x.
Proof.
  induction xs as [|a xs IH]; [done|]. intros _.
  destruct xs as [|b xs]; [done|].
  change (a ++ sep ++ join sep ((b :: xs) ++ [x]) = (a ++ sep ++ join sep (b :: xs)) ++ sep ++ x).
  rewrite IH by done. by rewrite <- !app_assoc.
Qed.

Lemma uint_digits_inj d1 d2 : uint_digits d1 = uint_digits d2 -> d1 = d2.
Proof.
  revert d2. induction d1; intros [] H; simpl in H;
    try discriminate; try reflexivity;
    injection H as H; f_equal; by apply IHd1.
Qed.

Lemma str_of_nat_inj n m : str_of_nat n = str_of_nat m -> n = m.
Proof.
  unfold str_of_nat. intros H%uint_digits_inj.
  rewrite <- (DecimalNat.Unsigned.of_to n), <- (DecimalNat.Unsigned.of_to m).
  by rewrite H.
Qed.

End PyFacts.

(** * Facts about the UTF-8 encoder *)

Section Utf8Facts.
Import Py.

Lemma find_surrogate_None (s : str) i :
  Utf8.find_surrogate i s = None <-> Forall (fun c => Utf8.is_surrogate c = false) s.
Proof.
  revert i. induction s as [|c s IH]; intros i; simpl.
  - split; [constructor|done].
  - destruct (Utf8.is_surrogate c) eqn:Hc.
    + split; [done|]. intros H. inversion H; congruence.
    + rewrite IH. split; [by constructor|]. by inversion 1.
Qed.

Lemma encode_inr (s : str) data :
  Utf8.encode s = inr data <->
  Forall (fun c => Utf8.is_surrogate c = false) s /\ data = flat_map Utf8.encode_char s.
Proof.
  unfold Utf8.encode. rewrite <- (find_surrogate_None s 0).
  destruct (Utf8.find_surrogate 0 s) as [[start rest]|].
  - split; [done|]. by intros [? _].
  - split; [by intros [= <-]|]. by intros [_ ->].
Qed.

Lemma encode_inl (s : str) e :
  Utf8.encode s = inl e -> exn_type e = UnicodeEncodeError.
Proof.
  unfold Utf8.encode. destruct (Utf8.find_surrogate 0 s) as [[start rest]|]; [|done].
  by intros [= <-].
Qed.

(** Encoding works piece by piece. *)
Lemma encode_app (a b : str) data :
  Utf8.encode (a ++ b) = inr data ->
  exists da db, Utf8.encode a = inr da /\ Utf8.encode b = inr db /\ data = da ++ db.
Proof.
  rewrite encode_inr, Forall_app, flat_map_app. intros [[Ha Hb] ->].
  exists (flat_map Utf8.encode_char a), (flat_map Utf8.encode_char b).
  by rewrite !encode_inr.
Qed.

Lemma continuation_byte_not_LF x : N.lor 0x80 x <> 10.
Proof.
  intros H. apply (f_equal (fun v => N.testbit v 7)) in H.
  rewrite N.lor_spec in H. discriminate H.
Qed.

(** The encoding of a character is not empty, and it ends with the line
    feed byte only for the line feed itself. *)
Lemma encode_char_last c :
  exists front b, Utf8.encode_char c = front ++ [b] /\ (b = 10 -> c = 10).
Proof.
  unfold Utf8.encode_char.
  destruct (c <? 0x80); [by exists [], c|].
  destruct (c <? 0x800);
    [eexists [_], _; split; [reflexivity|]; by intros ?%continuation_byte_not_LF|].
  destruct (c <? 0x10000);
    [eexists [_; _], _; split; [reflexivity|]; by intros ?%continuation_byte_not_LF|].
  eexists [_; _; _], _; split; [reflexivity|]; by intros ?%continuation_byte_not_LF.
Qed.

(** A text that ends with exactly one line feed is encoded as bytes that
    end with exactly one line feed byte. *)
Lemma encode_single_trailing_LF (body : str) c data :
  c <> 10 ->
  Utf8.encode (body ++ [c] ++ LF) = inr data ->
  exists front b, data = front ++ [b] ++ [10] /\ b <> 10.
Proof.
  intros Hc. rewrite encode_inr. intros [_ ->].
  rewrite !flat_map_app. simpl.
  destruct (encode_char_last c) as (front & b & -> & Hb).
  exists (flat_map Utf8.encode_char body ++ front), b. split.
  - change (Utf8.encode_char 10) with [10]. by rewrite app_nil_r, <- !app_assoc.
  - intros ->. by apply Hc, Hb.
Qed.

End Utf8Facts.

(** * The page loop *)

Section Loop.
Import Py.

(** Every page list is all text, or has a first page whose extraction
    raises. *)
Lemma pages_text_or_error (pages : list Page) :
  (exists texts, pages = PageText <$> texts)
  \/ (exists texts e rest, pages = (PageText <$> texts) ++ PageError e :: rest).
Proof.
  induction pages as [|[text|e] pages IH].
  - left. by exists [].
  - destruct IH as [[texts ->]|(texts & e & rest & ->)].
    + left. by exists (text :: texts).
    + right. by exists (text :: texts), e, rest.
  - right. by exists [], e, pages.
Qed.

(** One turn of the loop on a page whose extraction succeeds appends the
    page's block. *)
Lemma page_loop_step i text pages lines w :
  page_loop i (PageText text :: pages) lines w
  = page_loop (S i) pages (lines ++ page_block i text) w.
Proof.
  cbn [page_loop get_text]. unfold mbind, M_bind, mret, M_ret.
  unfold page_block, page_heading. rewrite Nat.add_1_r.
  destruct (strip text); cbn [truthy]; by rewrite ?app_nil_r.
Qed.

(** The loop never touches the world.  On pages that all yield text it
    appends their blocks in order. *)
Lemma page_loop_texts texts : forall i lines w,
  page_loop i (PageText <$> texts) lines w
  = (inr (lines ++ concat (imap (fun j => page_block (i + j)) texts)), w).
Proof.
  induction texts as [|text texts IH]; intros i lines w.
  - cbn. by rewrite app_nil_r.
  - rewrite fmap_cons, page_loop_step, IH, imap_cons. cbn [concat].
    rewrite Nat.add_0_r, <- app_assoc.
    rewrite (imap_ext ((fun j => page_block (i + j)) ∘ S)
                      (fun j => page_block (S i + j))); [done|].
    intros j t _. cbn. f_equal. lia.
Qed.

(** At the first page whose extraction raises, the loop stops with that
    exception. *)
Lemma page_loop_error texts e rest : forall i lines w,
  page_loop i ((PageText <$> texts) ++ PageError e :: rest) lines w = (inl e, w).
Proof.
  induction texts as [|text texts IH]; intros i lines w.
  - reflexivity.
  - rewrite fmap_cons. cbn [app]. by rewrite page_loop_step, IH.
Qed.

End Loop.

(** * The conversion routine ends in one of its six exits *)

Section Exits.
Import Py.
Variable E : env.

Lemma lookup_new_document (l : list Document) d :
  (l ++ [d]) !! length l = Some d.
Proof. by apply list_lookup_middle. Qed.

Lemma close_new_document (l : list Document) d f :
  alter f (length l) (l ++ [d]) = l ++ [f d].
Proof.
  replace (length l) with (length l + 0)%nat by lia.
  by rewrite alter_app_r.
Qed.

Lemma extract_pdf_text_outcome pdf_path output_path w :
  outcome E pdf_path output_path w (extract_pdf_text E pdf_path output_path w).
Proof.
  unfold extract_pdf_text, mbind, M_bind, os_path_exists.
  destruct (files w !! pdf_path) as [data|] eqn:Hfile; cycle 1.
  { rewrite bool_decide_eq_false_2 by (by intros [? ?]). by apply exit_not_found. }
  rewrite bool_decide_eq_true_2 by eauto. cbn [negb].
  unfold fitz_open. rewrite Hfile.
  destruct (fitz_parse E pdf_path (Some data)) as [e|pages] eqn:Hparse.
  { by eapply exit_open_raises. }
  unfold doc_page_list. cbn [files docs].
  rewrite lookup_new_document. cbn [from_option doc_pages].
  destruct (pages_text_or_error pages) as [[texts ->]|(texts & e & rest & ->)]; cycle 1.
  { rewrite page_loop_error. by eapply exit_page_raises. }
  rewrite page_loop_texts. unfold doc_close. cbn [files docs].
  rewrite close_new_document. cbn [doc_name doc_pages].
  rewrite length_fmap.
  change (([] ++ [lit "# " ++ OsPath.basename pdf_path]) ++ [[]]
          ++ [lit "*" ++ str_of_nat (length texts) ++ lit " pages*"]) with
    [lit "# " ++ OsPath.basename pdf_path; []; lit "*" ++ str_of_nat (length texts) ++ lit " pages*"].
  fold (resolved_output pdf_path output_path).
  unfold write_text. cbn [files docs].
  destruct (open_w E (resolved_output pdf_path output_path)) as [e|] eqn:Hdest.
  { by eapply exit_destination_raises. }
  destruct (Utf8.encode _) as [e|encoded] eqn:Henc.
  - by eapply exit_write_raises.
  - by eapply exit_return.
Qed.

End Exits.

(** * Facts about the output format *)

Section FormatFacts.
Import Py.

Lemma filter_ext_in {A} (P1 P2 : A -> Prop)
    `{!forall x, Decision (P1 x), !forall x, Decision (P2 x)} (l : list A) :
  (forall x, x ∈ l -> P1 x <-> P2 x) -> filter P1 l = filter P2 l.
Proof.
  induction l as [|a l IH]; intros Hiff; [done|].
  rewrite !filter_cons, IH by (intros; apply Hiff; by right).
  assert (P1 a <-> P2 a) as Ha by (apply Hiff; by left).
  destruct (decide (P1 a)), (decide (P2 a)); done || tauto.
Qed.

Lemma StronglySorted_lt_seq j n : StronglySorted lt (seq j n).
Proof.
  revert j. induction n as [|n IH]; intros j; cbn; constructor; [apply IH|].
  apply Forall_forall. intros x Hx%elem_of_seq. lia.
Qed.

Lemma StronglySorted_filter_keep {A} (R : relation A) (P : A -> Prop)
    `{!forall x, Decision (P x)} (l : list A) :
  StronglySorted R l -> StronglySorted R (filter P l).
Proof.
  induction 1 as [|a l Hl IH Ha]; [constructor|].
  rewrite filter_cons. destruct (decide (P a)); [|done].
  constructor; [done|]. apply Forall_forall. intros x [_ Hx]%list_elem_of_filter.
  by eapply Forall_forall in Ha.
Qed.

(** Which positions are emitted. *)
Lemma elem_of_emitted_pages texts i :
  i ∈ emitted_pages texts <-> exists t, texts !! i = Some t /\ strip t <> [].
Proof.
  unfold emitted_pages, page_has_text. rewrite list_elem_of_filter, elem_of_seq.
  split.
  - intros [Ht _]. destruct (texts !! i) as [t|]; [|done].
    exists t. split; [done|]. by apply truthy_nonempty.
  - intros (t & Hi & Ht). rewrite Hi. split; [by apply truthy_nonempty|].
    apply lookup_lt_Some in Hi. lia.
Qed.

Lemma NoDup_emitted_pages texts : NoDup (emitted_pages texts).
Proof. apply NoDup_filter, NoDup_seq. Qed.

Lemma emitted_pages_ascending texts : StronglySorted lt (emitted_pages texts).
Proof. apply StronglySorted_filter_keep, StronglySorted_lt_seq. Qed.

Lemma emitted_pages_snoc texts t :
  emitted_pages (texts ++ [t])
  = emitted_pages texts ++ (if truthy (strip t) then [length texts] else []).
Proof.
  unfold emitted_pages. rewrite length_app, seq_app, filter_app. cbn [length seq].
  f_equal.
  - apply filter_ext_in. intros i Hi%elem_of_seq.
    unfold page_has_text. by rewrite lookup_app_l by lia.
  - rewrite filter_cons, filter_nil. unfold page_has_text.
    rewrite list_lookup_middle by done. cbn.
    destruct (truthy (strip t)); by case_decide.
Qed.

(** The blocks the pages contribute are the blocks of the emitted pages,
    in the same order. *)
Lemma blocks_of_emitted_pages texts :
  concat (imap page_block texts) = concat (emitted_block texts <$> emitted_pages texts).
Proof.
  induction texts as [|t texts IH] using rev_ind; [done|].
  rewrite imap_app, concat_app, emitted_pages_snoc, fmap_app, concat_app, IH.
  f_equal.
  - f_equal. apply list_fmap_ext. intros k i Hk.
    assert (i ∈ emitted_pages texts) as (t' & Hi & _)%elem_of_emitted_pages
      by (by eapply list_elem_of_lookup_2).
    unfold emitted_block. do 3 f_equal.
    by rewrite lookup_total_app_l by (by eapply lookup_lt_Some).
  - cbn [imap concat]. rewrite Nat.add_0_r, app_nil_r.
    unfold page_block.
    destruct (strip t) as [|c s] eqn:Ht; cbn [truthy fmap list_fmap concat]; [done|].
    rewrite app_nil_r. unfold emitted_block.
    by rewrite list_lookup_total_middle, Ht by done.
Qed.

Lemma page_heading_inj i j : page_heading i = page_heading j -> i = j.
Proof.
  unfold page_heading. intros H%app_inv_head%str_of_nat_inj. lia.
Qed.

(** The page-count line is part of the text. *)
Lemma spec_markdown_contains_count B N texts :
  contains (lit "*" ++ str_of_nat N ++ lit " pages*") (spec_markdown B N texts).
Proof.
  unfold spec_markdown, spec_lines, header_lines.
  exists ((lit "# " ++ B) ++ LF ++ [] ++ LF),
         (LF ++ join LF ([] :: concat (imap page_block texts))).
  cbn [app join]. by rewrite <- !app_assoc.
Qed.

(** The last line is always blank, and the line before it ends with a
    character that is not white space. *)
Lemma spec_lines_end B N texts :
  exists front body c,
    spec_lines B N texts = front ++ [body ++ [c]; []] /\ isspace c = false.
Proof.
  unfold spec_lines. induction texts as [|t texts IH] using rev_ind.
  - exists [lit "# " ++ B; []], (lit "*" ++ str_of_nat N ++ lit " pages"), 42.
    split; [|reflexivity]. unfold header_lines.
    change (lit " pages*") with (lit " pages" ++ [42]).
    cbn [imap concat app]. by rewrite <- !app_assoc.
  - rewrite imap_app, concat_app. cbn [imap concat]. rewrite app_nil_r.
    unfold page_block at 2. destruct (strip t) as [|c0 s] eqn:Ht.
    + by rewrite app_nil_r.
    + destruct (strip_last t) as (body & c & Hlast & Hc); [by rewrite Ht|].
      rewrite <- Ht, Hlast.
      eexists (header_lines B N ++ concat (imap page_block texts)
               ++ [lit "---"; page_heading (length texts + 0); []]), body, c.
      split; [|done]. by rewrite <- !app_assoc.
Qed.

(** Hence the text ends with exactly one line feed. *)
Lemma spec_markdown_end B N texts :
  exists body c,
    spec_markdown B N texts = body ++ [c] ++ LF /\ isspace c = false.
Proof.
  destruct (spec_lines_end B N texts) as (front & body & c & Hlines & Hc).
  unfold spec_markdown. rewrite Hlines.
  change (front ++ [body ++ [c]; []]) with (front ++ [body ++ [c]] ++ [[]]).
  rewrite app_assoc, join_snoc by (by destruct front).
  rewrite (app_nil_r LF).
  destruct front as [|l front].
  - exists body, c. split; [|done]. cbn [app join]. by rewrite <- app_assoc.
  - rewrite join_snoc by done.
    exists (join LF (l :: front) ++ LF ++ body), c. split; [|done].
    by rewrite <- !app_assoc.
Qed.

End FormatFacts.

(** * Facts about [os.path] *)

Section OsPathFacts.
Import Py OsPath.

(** [rfind_from] returns the fallback when the character does not occur,
    and otherwise the position of its last occurrence. *)
Lemma rfind_from_spec c (s : str) : forall i last,
  ((c ∉ s) /\ rfind_from c s i last = last)
  \/ (exists k, s !! k = Some c /\ (c ∉ drop (S k) s)
               /\ rfind_from c s i last = (i + Z.of_nat k)%Z).
Proof.
  induction s as [|x s IH]; intros i last; cbn [rfind_from].
  - left. split; [apply not_elem_of_nil|done].
  - destruct (IH (i + 1)%Z (if x =? c then i else last))
      as [[Hnot ->]|(k & Hk & Hafter & ->)].
    + destruct (N.eqb_spec x c) as [->|Hne].
      * right. exists 0%nat. repeat split; [done|]. lia.
      * left. split; [|done]. rewrite not_elem_of_cons. split; [congruence|done].
    + right. exists (S k). repeat split; [done..|]. lia.
Qed.

Lemma rfind_spec c (s : str) :
  ((c ∉ s) /\ rfind c s = (-1)%Z)
  \/ (exists k, s !! k = Some c /\ (c ∉ drop (S k) s) /\ rfind c s = Z.of_nat k).
Proof.
  destruct (rfind_from_spec c s 0 (-1)) as [?|(k & ? & ? & Hk)]; [by left|].
  right. exists k. by rewrite Z.add_0_l in Hk.
Qed.

(** [splitext] cuts the path in two; the second part is an extension. *)
Lemma splitext_spec (p : str) :
  p = (splitext p).1 ++ (splitext p).2 /\ is_extension (splitext p).2.
Proof.
  unfold splitext.
  destruct (rfind sep p <? rfind extsep p)%Z eqn:Hlt;
    [|split; [by rewrite app_nil_r|by left]].
  destruct (has_non_dot _); [|split; [by rewrite app_nil_r|by left]].
  apply Z.ltb_lt in Hlt. cbn [fst snd]. unfold slice_to, slice_from.
  split; [by rewrite take_drop|].
  destruct (rfind_spec extsep p) as [[_ Hdot]|(k & Hk & Hafter & Hdot)].
  { exfalso. destruct (rfind_spec sep p) as [[_ Hs]|(j & _ & _ & Hs)]; lia. }
  rewrite Hdot, Nat2Z.id. right. exists (drop (S k) p).
  split; [by apply drop_S|]. split; [done|].
  destruct (rfind_spec sep p) as [[Hnot _]|(j & _ & Hj & Hs)].
  - intros Hin. by apply Hnot, (subseteq_drop (S k)).
  - intros Hin. apply Hj.
    replace (S k) with (S j + (k - j))%nat in Hin by lia.
    rewrite <- drop_drop in Hin. by eapply subseteq_drop.
Qed.

End OsPathFacts.

(** * Page lists *)

Lemma page_texts_inj (t1 t2 : list Py.str) :
  PageText <$> t1 = PageText <$> t2 -> t1 = t2.
Proof.
  revert t2. induction t1 as [|a t1 IH]; intros [|b t2] H; try done.
  rewrite !fmap_cons in H. injection H as -> H. f_equal. by apply IH.
Qed.

Lemma page_texts_not_error (texts texts' : list Py.str) e rest :
  PageText <$> texts = (PageText <$> texts') ++ PageError e :: rest -> False.
Proof.
  intros H. assert (PageError e ∈ PageText <$> texts) as Hin.
  { rewrite H, elem_of_app. right. by left. }
  apply list_elem_of_fmap in Hin as (t & Ht & _). discriminate Ht.
Qed.

Lemma page_error_split_inj (t1 t2 : list Py.str) e1 e2 r1 r2 :
  (PageText <$> t1) ++ PageError e1 :: r1 = (PageText <$> t2) ++ PageError e2 :: r2 ->
  t1 = t2 /\ e1 = e2 /\ r1 = r2.
Proof.
  revert t2. induction t1 as [|a t1 IH]; intros [|b t2] H;
    rewrite ?fmap_cons in H; cbn [fmap list_fmap app] in H; try discriminate.
  - by injection H as -> ->.
  - injection H as -> H. by destruct (IH _ H) as (-> & -> & ->).
Qed.

(** * The conversion routine *)

(** Hypotheses that fix the same quantity twice (the content of a file,
    the answer of the library, of the destination, of the encoder) are
    merged. *)
Ltac unify_exits :=
  repeat match goal with
         | H1 : ?x = _, H2 : ?x = _ |- _ => rewrite H1 in H2; simplify_eq
         | H : PageText <$> _ = PageText <$> _ |- _ =>
             apply page_texts_inj in H; subst
         | H : (PageText <$> _) ++ PageError _ :: _
               = (PageText <$> _) ++ PageError _ :: _ |- _ =>
             apply page_error_split_inj in H as (? & ? & ?); subst
         | H : PageText <$> _ = (PageText <$> _) ++ PageError _ :: _ |- _ =>
             by apply page_texts_not_error in H
         | H : (PageText <$> _) ++ PageError _ :: _ = PageText <$> _ |- _ =>
             symmetry in H; by apply page_texts_not_error in H
         end.

Section Conversion.
Import Py.
Variable E : env.

(** A run that returns went through the [return] exit. *)
Lemma extract_returns pdf_path output_path w p w' :
  extract_pdf_text E pdf_path output_path w = (inr p, w') ->
  exists data texts encoded,
    files w !! pdf_path = Some data
    /\ fitz_parse E pdf_path (Some data) = inr (PageText <$> texts)
    /\ open_w E (resolved_output pdf_path output_path) = None
    /\ Utf8.encode (spec_markdown (OsPath.basename pdf_path) (length texts) texts)
       = inr encoded
    /\ p = resolved_output pdf_path output_path
    /\ w' = World (<[p := encoded]> (files w))
                  (docs w ++ [Build_Document pdf_path (PageText <$> texts) true]).
Proof.
  intros Hrun. pose proof (extract_pdf_text_outcome E pdf_path output_path w) as Hout.
  rewrite Hrun in Hout. inversion Hout; subst. by eexists _, _, _.
Qed.

(** The exits exclude one another: a run that meets the condition of an
    exit leaves through it. *)
Lemma outcome_unique pdf_path output_path w r :
  outcome E pdf_path output_path w r ->
  extract_pdf_text E pdf_path output_path w = r.
Proof.
  intros Hr. pose proof (extract_pdf_text_outcome E pdf_path output_path w) as Hout.
  destruct (extract_pdf_text E pdf_path output_path w) as [res w'].
  inversion Hr; subst; inversion Hout; subst; unify_exits; done.
Qed.

(** A readable document and a writable, encodable result make the routine
    return. *)
Lemma extract_succeeds pdf_path output_path w data texts encoded :
  files w !! pdf_path = Some data ->
  fitz_parse E pdf_path (Some data) = inr (PageText <$> texts) ->
  open_w E (resolved_output pdf_path output_path) = None ->
  Utf8.encode (spec_markdown (OsPath.basename pdf_path) (length texts) texts)
    = inr encoded ->
  extract_pdf_text E pdf_path output_path w
  = (inr (resolved_output pdf_path output_path),
     World (<[resolved_output pdf_path output_path := encoded]> (files w))
           (docs w ++ [Build_Document pdf_path (PageText <$> texts) true])).
Proof. intros. apply outcome_unique. by eapply exit_return. Qed.

(** C1.  For a PDF that opens with pages [pages] (page count
    [length pages]) and base name [basename pdf_path], a conversion that
    returns has extracted a text from every page and has written exactly
    the UTF-8 encoding of the specified Markdown text: the newline-join of
    the title line, a blank line, the page-count line, a blank line and,
    for each page in ascending order whose trimmed text is not empty, a
    rule, the heading with the 1-based index, a blank line, the trimmed
    text and a blank line.  In particular the text contains
    ["*N pages*"], and so do the bytes of the file. *)
Theorem written_content_is_spec_markdown pdf_path output_path w p w' data pages :
  files w !! pdf_path = Some data ->
  fitz_parse E pdf_path (Some data) = inr pages ->
  extract_pdf_text E pdf_path output_path w = (inr p, w') ->
  exists texts encoded count_bytes,
    pages = PageText <$> texts
    /\ Utf8.encode (spec_markdown (OsPath.basename pdf_path) (length pages) texts)
       = inr encoded
    /\ files w' !! p = Some encoded
    /\ contains (lit "*" ++ str_of_nat (length pages) ++ lit " pages*")
                (spec_markdown (OsPath.basename pdf_path) (length pages) texts)
    /\ Utf8.encode (lit "*" ++ str_of_nat (length pages) ++ lit " pages*")
       = inr count_bytes
    /\ contains count_bytes encoded.
Proof.
  intros Hfile Hparse Hrun.
  destruct (extract_returns _ _ _ _ _ Hrun)
    as (data' & texts & encoded & Hfile' & Hparse' & _ & Henc & -> & ->).
  unify_exits. rewrite length_fmap.
  pose proof (spec_markdown_contains_count (OsPath.basename pdf_path)
                (length texts) texts) as Hcount.
  destruct Hcount as (pre & suf & Hsplit).
  pose proof Henc as Henc'. rewrite Hsplit in Henc'.
  apply encode_app in Henc' as (dpre & drest & _ & Hrest & ->).
  apply encode_app in Hrest as (dcount & dsuf & Hcount & _ & ->).
  exists texts, (dpre ++ dcount ++ dsuf), dcount.
  split; [done|]. split; [done|]. split; [by cbn; rewrite lookup_insert_eq|].
  split; [by exists pre, suf|]. split; [done|]. by exists dpre, dsuf.
Qed.

End Conversion.

(** The sample report is converted as the format prescribes. *)
Lemma written_content_is_spec_markdown_witness :
  exists texts encoded count_bytes,
    [PageText (Py.lit "Hello" ++ Py.LF); PageText (Py.lit "  " ++ Py.LF);
     PageText (Py.lit " World")] = PageText <$> texts
    /\ Utf8.encode (spec_markdown (OsPath.basename (Py.lit "report.pdf")) 3 texts)
       = inr encoded
    /\ files (extract_pdf_text Sample.sample_env (Py.lit "report.pdf") None
                Sample.sample_world).2 !! Py.lit "report.md" = Some encoded
    /\ Py.contains (Py.lit "*" ++ Py.str_of_nat 3 ++ Py.lit " pages*")
                (spec_markdown (OsPath.basename (Py.lit "report.pdf")) 3 texts)
    /\ Utf8.encode (Py.lit "*" ++ Py.str_of_nat 3 ++ Py.lit " pages*")
       = inr count_bytes
    /\ Py.contains count_bytes encoded.
Proof.
  apply (written_content_is_spec_markdown Sample.sample_env (Py.lit "report.pdf")
           None Sample.sample_world (Py.lit "report.md") _ Sample.report_bytes
           [PageText (Py.lit "Hello" ++ Py.LF); PageText (Py.lit "  " ++ Py.LF);
            PageText (Py.lit " World")]).
  - vm_compute. reflexivity.
  - vm_compute. reflexivity.
  - vm_compute. reflexivity.
Defined.

(** * Page headings *)

(** ** The lines of the text *)

Section Lines.
Import Py.

Lemma split_lines_cons (s : str) : exists line lines, split_lines s = line :: lines.
Proof.
  induction s as [|c s (line & lines & IH)]; [by eexists _, _|].
  cbn [split_lines]. destruct (c =? 10); [by eexists _, _|].
  rewrite IH. by eexists _, _.
Qed.

(** A line feed ends the last line before it. *)
Lemma split_lines_app_LF (a b : str) :
  split_lines (a ++ LF ++ b) = split_lines a ++ split_lines b.
Proof.
  induction a as [|c a IH]; [done|].
  cbn [app split_lines]. rewrite IH. destruct (c =? 10); [done|].
  by destruct (split_lines_cons a) as (line & lines & ->).
Qed.

(** The lines of a joined text are the lines of its parts. *)
Lemma split_lines_join (xs : list str) :
  xs <> [] -> split_lines (join LF xs) = concat (split_lines <$> xs).
Proof.
  induction xs as [|x xs IH]; [done|]. intros _.
  destruct xs as [|y xs].
  - cbn. by rewrite app_nil_r.
  - change (join LF (x :: y :: xs)) with (x ++ LF ++ join LF (y :: xs)).
    rewrite split_lines_app_LF, IH by done. done.
Qed.

(** A text without line feed is one line. *)
Lemma split_lines_one (s : str) : (10 ∉ s) -> split_lines s = [s].
Proof.
  induction s as [|c s IH]; [done|].
  intros [Hc Hs]%not_elem_of_cons. cbn [split_lines].
  destruct (N.eqb_spec c 10) as [->|_]; [done|]. by rewrite IH.
Qed.

Lemma digits_range d : Forall (fun c => 48 <= c <= 57) (uint_digits d).
Proof. induction d; cbn [uint_digits]; constructor; (done || lia). Qed.

Lemma str_of_nat_no_LF n : 10 ∉ str_of_nat n.
Proof.
  intros Hin. pose proof (digits_range (Nat.to_uint n)) as Hd.
  rewrite Forall_forall in Hd. apply Hd in Hin. lia.
Qed.

Lemma literal_no_LF (l : str) : Forall (fun c => c <> 10) l -> 10 ∉ l.
Proof. rewrite Forall_forall. intros H Hin. by apply (H 10). Qed.

Ltac no_LF_literal :=
  apply literal_no_LF; vm_compute; repeat (constructor; [discriminate|]); constructor.

Lemma page_heading_one_line i : split_lines (page_heading i) = [page_heading i].
Proof.
  apply split_lines_one. unfold page_heading. apply not_elem_of_app.
  split; [no_LF_literal|apply str_of_nat_no_LF].
Qed.

Lemma count_line_one_line n :
  split_lines (lit "*" ++ str_of_nat n ++ lit " pages*")
  = [lit "*" ++ str_of_nat n ++ lit " pages*"].
Proof.
  apply split_lines_one. rewrite !not_elem_of_app.
  split; [no_LF_literal|]. split; [apply str_of_nat_no_LF|no_LF_literal].
Qed.

Lemma page_heading_hashes i : exists r, page_heading i = 35 :: 35 :: r.
Proof. unfold page_heading. by eexists. Qed.

Lemma filter_none {A} (P : A -> Prop) `{!forall x, Decision (P x)} (l : list A) :
  (forall x, x ∈ l -> ~ P x) -> filter P l = [].
Proof.
  induction l as [|a l IH]; intros Hl; [done|].
  rewrite filter_cons_False by (apply Hl; by left).
  apply IH. intros x Hx. apply Hl. by right.
Qed.

Lemma filter_all {A} (P : A -> Prop) `{!forall x, Decision (P x)} (l : list A) :
  (forall x, x ∈ l -> P x) -> filter P l = l.
Proof.
  induction l as [|a l IH]; intros Hl; [done|].
  rewrite filter_cons_True by (apply Hl; by left).
  f_equal. apply IH. intros x Hx. apply Hl. by right.
Qed.

(** ** Lines that look like headings *)

(** A decidable property of lines that only lines beginning with two
    hashes can have, and that no line of the title and of the trimmed
    page texts has. *)
Variable P : str -> Prop.
Context `{!forall l, Decision (P l)}.
Variables (B : str) (texts : list str).
Hypothesis P_hashes : forall l, P l -> exists r, l = 35 :: 35 :: r.
Hypothesis P_title : forall l, l ∈ split_lines (lit "# " ++ B) -> ~ P l.
Hypothesis P_texts :
  forall t, t ∈ texts -> forall l, l ∈ split_lines (strip t) -> ~ P l.

Lemma P_not_blank : ~ P [].
Proof. by intros (r & ?)%P_hashes. Qed.

Lemma P_not_rule : ~ P (lit "---").
Proof. intros (r & Hr)%P_hashes. discriminate Hr. Qed.

Lemma P_not_count n : ~ P (lit "*" ++ str_of_nat n ++ lit " pages*").
Proof. intros (r & Hr)%P_hashes. discriminate Hr. Qed.

Lemma filter_header_lines n :
  filter P (concat (split_lines <$> header_lines B n)) = [].
Proof.
  apply filter_none. intros l. unfold header_lines.
  cbn [fmap list_fmap concat]. rewrite count_line_one_line.
  change (split_lines []) with [@nil N].
  rewrite !elem_of_app, !list_elem_of_singleton, elem_of_nil.
  pose proof P_not_blank. pose proof (P_not_count n).
  intros [?|[->|[->|[->|[]]]]]; (done || by apply P_title).
Qed.

Lemma filter_block_lines i :
  (i < length texts)%nat ->
  filter P (concat (split_lines <$> emitted_block texts i)) = filter P [page_heading i].
Proof.
  intros Hi. unfold emitted_block. cbn [fmap list_fmap concat].
  change (split_lines []) with [@nil N].
  rewrite page_heading_one_line, (split_lines_one (lit "---")) by no_LF_literal.
  rewrite !filter_app.
  rewrite (filter_none P [lit "---"]), (filter_none P [[]]),
    (filter_none P (split_lines (strip (texts !!! i)))); [by rewrite !app_nil_r| | |].
  - apply P_texts. apply list_elem_of_lookup. exists i.
    by apply list_lookup_lookup_total_lt.
  - intros l ->%list_elem_of_singleton. apply P_not_blank.
  - intros l ->%list_elem_of_singleton. apply P_not_rule.
Qed.

Lemma filter_blocks_lines (pages : list nat) :
  Forall (fun i => (i < length texts)%nat) pages ->
  filter P (concat (split_lines <$> concat (emitted_block texts <$> pages)))
  = filter P (page_heading <$> pages).
Proof.
  induction 1 as [|i pages Hi _ IH]; [done|].
  rewrite !fmap_cons. cbn [concat]. rewrite fmap_app, concat_app, filter_app.
  rewrite IH, filter_block_lines by done. by rewrite <- filter_app.
Qed.

(** Among the lines of the Markdown text, those with the property are
    those among the headings of the emitted pages, in the same order. *)
Lemma filter_markdown_lines n :
  filter P (split_lines (spec_markdown B n texts))
  = filter P (page_heading <$> emitted_pages texts).
Proof.
  unfold spec_markdown. rewrite split_lines_join by done.
  unfold spec_lines. rewrite blocks_of_emitted_pages, fmap_app, concat_app, filter_app.
  rewrite filter_header_lines, filter_blocks_lines; [done|].
  apply Forall_forall. intros i (t & Hi & _)%elem_of_emitted_pages.
  by eapply lookup_lt_Some.
Qed.

End Lines.

(** How often a heading occurs among the headings of pages listed once. *)
Lemma count_heading (pages : list nat) i :
  NoDup pages ->
  length (filter (fun l => l = page_heading i) (page_heading <$> pages))
  = if decide (i ∈ pages) then 1%nat else 0%nat.
Proof.
  induction 1 as [|j pages Hj _ IH]; [done|].
  rewrite fmap_cons, filter_cons.
  destruct (decide (page_heading j = page_heading i)) as [Heq%page_heading_inj|Hne].
  - subst j. cbn [length]. rewrite IH.
    rewrite decide_False by done. by rewrite decide_True by (by left).
  - rewrite IH. destruct (decide (i ∈ pages)) as [Hin|Hnot].
    + by rewrite decide_True by (by right).
    + rewrite decide_False; [done|]. intros [->|?]%elem_of_cons; done.
Qed.

(** C2 as stated fails: page text is copied into the output as it is.
    The first page of this two-page document holds the line ["## Page 2"]
    and the second page is blank: the output has a line ["## Page 2"],
    although the trimmed text of page 2 is empty. *)
Lemma page_text_can_carry_a_heading_line :
  ~ (forall (E : env) pdf_path output_path w p w' data texts encoded,
       files w !! pdf_path = Some data ->
       fitz_parse E pdf_path (Some data) = inr (PageText <$> texts) ->
       extract_pdf_text E pdf_path output_path w = (inr p, w') ->
       Utf8.encode (spec_markdown (OsPath.basename pdf_path) (length texts) texts)
       = inr encoded ->
       files w' !! p = Some encoded ->
       forall i t, texts !! i = Some t ->
         length (filter (fun l => l = page_heading i)
                   (Py.split_lines
                      (spec_markdown (OsPath.basename pdf_path) (length texts) texts)))
         = if Py.truthy (Py.strip t) then 1%nat else 0%nat).
Proof.
  intros Hclaim.
  pose (texts := [Py.lit "x" ++ Py.LF ++ Py.lit "## Page 2" ++ Py.LF ++ Py.LF ++ Py.lit "y";
                  Py.lit " "]).
  pose (E := Env (fun _ _ => inr (PageText <$> texts)) (fun _ => None)).
  pose (w := World {[ Py.lit "book.pdf" := Py.lit "%PDF-1.4" ]} []).
  specialize (Hclaim E (Py.lit "book.pdf") None w (Py.lit "book.md")
                (extract_pdf_text E (Py.lit "book.pdf") None w).2
                (Py.lit "%PDF-1.4") texts
                (spec_markdown (OsPath.basename (Py.lit "book.pdf")) 2 texts)).
  specialize (Hclaim ltac:(by vm_compute) ltac:(by vm_compute) ltac:(by vm_compute)
                ltac:(by vm_compute) ltac:(by vm_compute) 1%nat (Py.lit " ") eq_refl).
  vm_compute in Hclaim. discriminate Hclaim.
Qed.

(** C2, amended.  The text a returning conversion writes is the header
    followed by one block (rule, heading with the 1-based index, blank
    line, trimmed text, blank line) for each page listed in
    [emitted_pages] and nothing else; a page is listed exactly when its
    trimmed text is not empty, no page is listed twice and the list is
    strictly ascending; different pages have different headings.  Page
    text is copied as it is, so the lines of the output are read under a
    proviso.  For a page whose heading is not itself a line of the title
    or of some trimmed page text: the heading is a line of the output
    exactly once when the trimmed text of the page is not empty, and not
    at all when it is empty.  When this holds for the headings of all the
    pages, the lines of the output that are headings of the document are
    the headings of the pages with text, each once, in ascending order. *)
Theorem heading_lines_follow_nonempty_pages (E : env) pdf_path output_path w p w' :
  extract_pdf_text E pdf_path output_path w = (inr p, w') ->
  exists data texts encoded,
    let B := OsPath.basename pdf_path in
    let content := spec_markdown B (length texts) texts in
    files w !! pdf_path = Some data
    /\ fitz_parse E pdf_path (Some data) = inr (PageText <$> texts)
    /\ Utf8.encode content = inr encoded
    /\ files w' !! p = Some encoded
    /\ content
       = Py.join Py.LF (header_lines B (length texts)
                        ++ concat (emitted_block texts <$> emitted_pages texts))
    /\ (forall i, i ∈ emitted_pages texts
                  <-> exists t, texts !! i = Some t /\ Py.strip t <> [])
    /\ NoDup (emitted_pages texts)
    /\ StronglySorted lt (emitted_pages texts)
    /\ (forall i, emitted_block texts i !! 1%nat
                  = Some (Py.lit "## Page " ++ Py.str_of_nat (i + 1)))
    /\ (forall i j, page_heading i = page_heading j -> i = j)
    /\ (forall i t,
          texts !! i = Some t ->
          not_in_texts (page_heading i) B texts ->
          length (filter (fun l => l = page_heading i) (Py.split_lines content))
          = if Py.truthy (Py.strip t) then 1%nat else 0%nat)
    /\ ((forall h, h ∈ document_headings (length texts) -> not_in_texts h B texts) ->
        filter (fun l => l ∈ document_headings (length texts)) (Py.split_lines content)
        = page_heading <$> emitted_pages texts).
Proof.
  intros Hrun.
  destruct (extract_returns _ _ _ _ _ _ Hrun)
    as (data & texts & encoded & Hfile & Hparse & _ & Henc & -> & ->).
  exists data, texts, encoded. cbn zeta.
  split; [done|]. split; [done|]. split; [done|].
  split; [by cbn; rewrite lookup_insert_eq|].
  split; [by unfold spec_markdown, spec_lines; rewrite blocks_of_emitted_pages|].
  split; [apply elem_of_emitted_pages|].
  split; [apply NoDup_emitted_pages|].
  split; [apply emitted_pages_ascending|].
  split; [intros i; unfold emitted_block, page_heading; by rewrite Nat.add_1_r|].
  split; [apply page_heading_inj|].
  split.
  - intros i t Hi [Htitle Htexts].
    rewrite (filter_markdown_lines (fun l => l = page_heading i)).
    + rewrite count_heading by apply NoDup_emitted_pages.
      destruct (Py.strip t) as [|c s] eqn:Ht; cbn [Py.truthy].
      * rewrite decide_False; [done|].
        intros (t' & Hi' & Hne)%elem_of_emitted_pages. congruence.
      * rewrite decide_True; [done|].
        apply elem_of_emitted_pages. exists t. split; [done|]. by rewrite Ht.
    + intros l ->. apply page_heading_hashes.
    + by intros l Hl ->.
    + intros t' Ht' l Hl ->. by eapply Htexts.
  - intros Hfree.
    rewrite (filter_markdown_lines (fun l => l ∈ document_headings (length texts))).
    + apply filter_all. intros h (i & -> & (t & Hi & _)%elem_of_emitted_pages)%list_elem_of_fmap.
      apply list_elem_of_fmap. exists i. split; [done|].
      apply elem_of_seq. apply lookup_lt_Some in Hi. lia.
    + intros l (i & -> & _)%list_elem_of_fmap. apply page_heading_hashes.
    + intros l Hl Hin. by destruct (Hfree l Hin) as [Htitle _].
    + intros t' Ht' l Hl Hin. destruct (Hfree l Hin) as [_ Htexts]. by eapply Htexts.
Qed.

(** In the sample report page 2 is blank: the heading lines of the output
    are those of pages 1 and 3. *)
Lemma heading_lines_follow_nonempty_pages_witness :
  exists data texts encoded,
    let B := OsPath.basename (Py.lit "report.pdf") in
    let content := spec_markdown B (length texts) texts in
    files Sample.sample_world !! Py.lit "report.pdf" = Some data
    /\ fitz_parse Sample.sample_env (Py.lit "report.pdf") (Some data)
       = inr (PageText <$> texts)
    /\ Utf8.encode content = inr encoded
    /\ files (extract_pdf_text Sample.sample_env (Py.lit "report.pdf") None
                Sample.sample_world).2 !! Py.lit "report.md" = Some encoded
    /\ content
       = Py.join Py.LF (header_lines B (length texts)
                        ++ concat (emitted_block texts <$> emitted_pages texts))
    /\ (forall i, i ∈ emitted_pages texts
                  <-> exists t, texts !! i = Some t /\ Py.strip t <> [])
    /\ NoDup (emitted_pages texts)
    /\ StronglySorted lt (emitted_pages texts)
    /\ (forall i, emitted_block texts i !! 1%nat
                  = Some (Py.lit "## Page " ++ Py.str_of_nat (i + 1)))
    /\ (forall i j, page_heading i = page_heading j -> i = j)
    /\ (forall i t,
          texts !! i = Some t ->
          not_in_texts (page_heading i) B texts ->
          length (filter (fun l => l = page_heading i) (Py.split_lines content))
          = if Py.truthy (Py.strip t) then 1%nat else 0%nat)
    /\ ((forall h, h ∈ document_headings (length texts) -> not_in_texts h B texts) ->
        filter (fun l => l ∈ document_headings (length texts)) (Py.split_lines content)
        = page_heading <$> emitted_pages texts).
Proof.
  apply (heading_lines_follow_nonempty_pages Sample.sample_env (Py.lit "report.pdf")
           None Sample.sample_world (Py.lit "report.md") _).
  vm_compute. reflexivity.
Defined.

(** The proviso holds for the sample report, whose output therefore has
    the heading lines of pages 1 and 3 and no other. *)
Example sample_heading_lines :
  filter (fun l => l ∈ document_headings 3)
    (Py.split_lines
       (spec_markdown (Py.lit "report.pdf") 3
          [Py.lit "Hello" ++ Py.LF; Py.lit "  " ++ Py.LF; Py.lit " World"]))
  = [Py.lit "## Page 1"; Py.lit "## Page 3"].
Proof. vm_compute. reflexivity. Qed.

(** * The command line *)

(** [main] reads the optional second argument as [sys.argv[2]] when there
    is one. *)
Lemma optional_argument (argv : list Py.str) :
  (if (2 <? length argv)%nat then Some (nth 2 argv []) else None) = argv !! 2%nat.
Proof. by destruct argv as [|a [|b [|c argv]]]. Qed.

(** With at least the input path on the command line, [main] reports what
    [extract_pdf_text] does. *)
Lemma main_reports (E : env) (argv : list Py.str) w :
  (2 <= length argv)%nat ->
  main E argv w =
  match extract_pdf_text E (nth 1 argv []) (argv !! 2%nat) w with
  | (inr result_path, w') => (Process (println result_path) [] 0, w')
  | (inl e, w') => (Process [] (println (Py.lit "ERROR: " ++ exn_str e)) 1, w')
  end.
Proof.
  intros Hlen. unfold main. rewrite optional_argument.
  by destruct (Nat.ltb_spec (length argv) 2); [lia|].
Qed.

(** * A missing input *)

(** C3.  When nothing exists at [pdf_path], [extract_pdf_text] raises
    [FileNotFoundError] with the message ["PDF not found: <pdf_path>"] and
    leaves the world as it was: no document has been opened and no file
    has been created.  Run from the command line with that input path,
    the script prints the message after ["ERROR: "] on standard error,
    nothing on standard output, and exits with status 1. *)
Theorem missing_input_fails_fast (E : env) pdf_path output_path w :
  files w !! pdf_path = None ->
  extract_pdf_text E pdf_path output_path w
  = (inl (Exn FileNotFoundError (Py.lit "PDF not found: " ++ pdf_path)), w)
  /\ Py.endswith (Py.lit "PDF not found: " ++ pdf_path) pdf_path
  /\ forall argv : list Py.str,
       (2 <= length argv)%nat -> nth 1 argv [] = pdf_path ->
       script E true argv w
       = (Process [] (println (Py.lit "ERROR: " ++ Py.lit "PDF not found: " ++ pdf_path)) 1, w)
         /\ exit_code (script E true argv w).1 <> 0%nat.
Proof.
  intros Hfile.
  assert (forall out, extract_pdf_text E pdf_path out w
          = (inl (Exn FileNotFoundError (Py.lit "PDF not found: " ++ pdf_path)), w))
    as Hraise.
  { intros out. pose proof (extract_pdf_text_outcome E pdf_path out w) as Hout.
    inversion Hout; unify_exits; done. }
  split; [apply Hraise|]. split; [by eexists|].
  intros argv Hlen Hpdf. unfold script.
  rewrite main_reports, Hpdf, Hraise by done. by split.
Qed.

(** Nothing is at [missing.pdf] in the sample world. *)
Lemma missing_input_fails_fast_witness :
  extract_pdf_text Sample.sample_env (Py.lit "missing.pdf") None Sample.sample_world
  = (inl (Exn FileNotFoundError (Py.lit "PDF not found: " ++ Py.lit "missing.pdf")),
     Sample.sample_world)
  /\ Py.endswith (Py.lit "PDF not found: " ++ Py.lit "missing.pdf") (Py.lit "missing.pdf")
  /\ forall argv : list Py.str,
       (2 <= length argv)%nat -> nth 1 argv [] = Py.lit "missing.pdf" ->
       script Sample.sample_env true argv Sample.sample_world
       = (Process [] (println (Py.lit "ERROR: " ++ Py.lit "PDF not found: "
                                 ++ Py.lit "missing.pdf")) 1,
          Sample.sample_world)
         /\ exit_code (script Sample.sample_env true argv Sample.sample_world).1 <> 0%nat.
Proof.
  apply (missing_input_fails_fast Sample.sample_env (Py.lit "missing.pdf") None
           Sample.sample_world).
  vm_compute. reflexivity.
Defined.

(** * The output path *)



(** * What a successful conversion changes *)

(** C9.  A conversion that returns has changed the file system in exactly
    one place: the file at the returned path now holds the encoded
    Markdown text, whether or not a file was there before.  Every other
    path holds what it held before; in particular the input PDF, when the
    result does not go to the input path itself. *)
Theorem only_output_file_changes (E : env) pdf_path output_path w p w' :
  extract_pdf_text E pdf_path output_path w = (inr p, w') ->
  p = resolved_output pdf_path output_path
  /\ exists texts encoded,
       Utf8.encode (spec_markdown (OsPath.basename pdf_path) (length texts) texts)
       = inr encoded
       /\ files w' = <[p := encoded]> (files w)
       /\ files w' !! p = Some encoded
       /\ (forall q, q <> p -> files w' !! q = files w !! q)
       /\ (pdf_path <> p -> files w' !! pdf_path = files w !! pdf_path).
Proof.
  intros Hrun.
  destruct (extract_returns _ _ _ _ _ _ Hrun)
    as (data & texts & encoded & _ & _ & _ & Henc & Hp & ->).
  split; [done|]. exists texts, encoded. cbn [files].
  split; [done|]. split; [done|]. split; [apply lookup_insert_eq|].
  split; intros; by rewrite lookup_insert_ne.
Qed.

(** Converting the sample report leaves the other three files alone. *)
Lemma only_output_file_changes_witness :
  Py.lit "out/report.md" = resolved_output (Py.lit "report.pdf") (Some (Py.lit "out/report.md"))
  /\ exists texts encoded,
       Utf8.encode (spec_markdown (OsPath.basename (Py.lit "report.pdf")) (length texts) texts)
       = inr encoded
       /\ files (extract_pdf_text Sample.sample_env (Py.lit "report.pdf")
                   (Some (Py.lit "out/report.md")) Sample.sample_world).2
          = <[Py.lit "out/report.md" := encoded]> (files Sample.sample_world)
       /\ files (extract_pdf_text Sample.sample_env (Py.lit "report.pdf")
                   (Some (Py.lit "out/report.md")) Sample.sample_world).2
            !! Py.lit "out/report.md" = Some encoded
       /\ (forall q, q <> Py.lit "out/report.md" ->
             files (extract_pdf_text Sample.sample_env (Py.lit "report.pdf")
                      (Some (Py.lit "out/report.md")) Sample.sample_world).2 !! q
             = files Sample.sample_world !! q)
       /\ (Py.lit "report.pdf" <> Py.lit "out/report.md" ->
             files (extract_pdf_text Sample.sample_env (Py.lit "report.pdf")
                      (Some (Py.lit "out/report.md")) Sample.sample_world).2
               !! Py.lit "report.pdf"
             = files Sample.sample_world !! Py.lit "report.pdf").
Proof.
  apply (only_output_file_changes Sample.sample_env (Py.lit "report.pdf")
           (Some (Py.lit "out/report.md")) Sample.sample_world
           (Py.lit "out/report.md") _).
  vm_compute. reflexivity.
Defined.

(** When the result is sent to the input path itself, the one file that
    changes is the input: the PDF is replaced by its own rendering. *)
Example output_over_input :
  let run := extract_pdf_text Sample.sample_env (Py.lit "report.pdf")
               (Some (Py.lit "report.pdf")) Sample.sample_world in
  run.1 = inr (Py.lit "report.pdf")
  /\ files run.2 !! Py.lit "report.pdf" <> files Sample.sample_world !! Py.lit "report.pdf".
Proof. split; [by vm_compute|]. vm_compute. discriminate. Qed.

(** * Determinism *)

(** What a run does is fixed by the library, the destination, the two
    arguments and the bytes at the input path: its result, the one file
    it may write, and the document it may leave in the table.  The rest
    of the world is carried through untouched. *)
Lemma extract_effect (E : env) pdf_path output_path (content : option Py.bytes) :
  exists (res : exn + Py.str) (written : option (Py.str * Py.bytes))
         (opened : list Document),
    (forall p, res = inr p -> exists encoded, written = Some (p, encoded))
    /\ forall w, files w !! pdf_path = content ->
         extract_pdf_text E pdf_path output_path w
         = (res,
            World (from_option (fun pd => <[pd.1 := pd.2]> (files w)) (files w) written)
                  (docs w ++ opened)).
Proof.
  destruct content as [data|]; cycle 1.
  { exists (inl (Exn FileNotFoundError (Py.lit "PDF not found: " ++ pdf_path))), None, [].
    split; [done|]. intros w Hw. rewrite app_nil_r.
    destruct w. by apply outcome_unique, exit_not_found. }
  destruct (fitz_parse E pdf_path (Some data)) as [e|pages] eqn:Hparse.
  { exists (inl e), None, []. split; [done|]. intros w Hw. rewrite app_nil_r.
    destruct w. by eapply outcome_unique, exit_open_raises. }
  destruct (pages_text_or_error pages) as [[texts ->]|(texts & e & rest & ->)]; cycle 1.
  { eexists (inl e), None, [_]. split; [done|]. intros w Hw.
    by eapply outcome_unique, exit_page_raises. }
  destruct (open_w E (resolved_output pdf_path output_path)) as [e|] eqn:Hdest.
  { eexists (inl e), None, [_]. split; [done|]. intros w Hw.
    by eapply outcome_unique, exit_destination_raises. }
  destruct (Utf8.encode (spec_markdown (OsPath.basename pdf_path) (length texts) texts))
    as [e|encoded] eqn:Henc.
  - eexists (inl e), (Some (_, _)), [_]. split; [done|]. intros w Hw.
    by eapply outcome_unique, exit_write_raises.
  - eexists (inr _), (Some (_, _)), [_]. split; [intros p [= <-]; by eexists|].
    intros w Hw. by eapply outcome_unique, exit_return.
Qed.

(** C7.  Two runs with the same arguments, the same library and the same
    bytes at the input path end the same way, and when they return, the
    files they wrote are byte-identical.  In particular, when the second
    run starts in the world the first one left (the PDF still holding the
    same bytes), it leaves every file as the first run left it. *)
Theorem conversion_is_deterministic (E : env) pdf_path output_path w1 w2 :
  files w1 !! pdf_path = files w2 !! pdf_path ->
  (extract_pdf_text E pdf_path output_path w1).1
  = (extract_pdf_text E pdf_path output_path w2).1
  /\ (forall p, (extract_pdf_text E pdf_path output_path w1).1 = inr p ->
        files (extract_pdf_text E pdf_path output_path w1).2 !! p
        = files (extract_pdf_text E pdf_path output_path w2).2 !! p)
  /\ (w2 = (extract_pdf_text E pdf_path output_path w1).2 ->
      forall p, (extract_pdf_text E pdf_path output_path w1).1 = inr p ->
        files (extract_pdf_text E pdf_path output_path w2).2 = files w2).
Proof.
  intros Hsame.
  destruct (extract_effect E pdf_path output_path (files w1 !! pdf_path))
    as (res & written & opened & Hret & Hrun).
  pose proof (Hrun w1 eq_refl) as H1. pose proof (Hrun w2 (eq_sym Hsame)) as H2.
  rewrite H1, H2. cbn [fst snd files]. split; [done|]. split.
  - intros p Hp. destruct (Hret p Hp) as [encoded ->]. cbn.
    by rewrite !lookup_insert_eq.
  - intros Hw2 p Hp. destruct (Hret p Hp) as [encoded ->]. cbn.
    apply insert_id. rewrite Hw2. cbn. apply lookup_insert_eq.
Qed.

(** Converting the sample report twice in a row. *)
Lemma conversion_is_deterministic_witness :
  let w1 := Sample.sample_world in
  let w2 := (extract_pdf_text Sample.sample_env (Py.lit "report.pdf") None w1).2 in
  (extract_pdf_text Sample.sample_env (Py.lit "report.pdf") None w1).1
  = (extract_pdf_text Sample.sample_env (Py.lit "report.pdf") None w2).1
  /\ (forall p, (extract_pdf_text Sample.sample_env (Py.lit "report.pdf") None w1).1 = inr p ->
        files (extract_pdf_text Sample.sample_env (Py.lit "report.pdf") None w1).2 !! p
        = files (extract_pdf_text Sample.sample_env (Py.lit "report.pdf") None w2).2 !! p)
  /\ (w2 = (extract_pdf_text Sample.sample_env (Py.lit "report.pdf") None w1).2 ->
      forall p, (extract_pdf_text Sample.sample_env (Py.lit "report.pdf") None w1).1 = inr p ->
        files (extract_pdf_text Sample.sample_env (Py.lit "report.pdf") None w2).2 = files w2).
Proof.
  intros w1 w2.
  apply (conversion_is_deterministic Sample.sample_env (Py.lit "report.pdf") None w1 w2).
  vm_compute. reflexivity.
Defined.

(** * The document handle *)

(** After a run, either no document was opened, or exactly one was, and it
    has been closed unless the extraction of some page raised. *)
Lemma document_closed_unless_page_raises (E : env) pdf_path output_path w r :
  extract_pdf_text E pdf_path output_path w = r ->
  docs r.2 = docs w
  \/ (exists pages, docs r.2 = docs w ++ [Build_Document pdf_path pages true]
                    /\ exists texts, pages = PageText <$> texts)
  \/ (exists pages, docs r.2 = docs w ++ [Build_Document pdf_path pages false]
                    /\ exists texts e rest,
                         pages = (PageText <$> texts) ++ PageError e :: rest
                         /\ r.1 = inl e).
Proof.
  intros <-. pose proof (extract_pdf_text_outcome E pdf_path output_path w) as Hout.
  inversion Hout; cbn [fst snd docs]; unfold with_document; eauto 10.
Qed.

(** C4, on the code: the second page of [damaged.pdf] cannot be read.  The
    routine opens the document, raises the library's exception from
    [get_text] and returns without reaching [doc.close()]: the document
    object it opened is left with [is_closed = false]. *)
Theorem document_left_open_when_page_raises :
  let run := extract_pdf_text Sample.sample_env (Py.lit "damaged.pdf") None
               Sample.sample_world in
  run.1 = inl (Exn FitzError (Py.lit "cannot extract text"))
  /\ docs Sample.sample_world = []
  /\ docs run.2
     = [Build_Document (Py.lit "damaged.pdf")
          [PageText (Py.lit "Intro");
           PageError (Exn FitzError (Py.lit "cannot extract text"))]
          false]
  /\ files run.2 = files Sample.sample_world.
Proof. vm_compute. done. Qed.

(** * Failures and the output file *)

(** C8 as stated fails: the only page of [odd.pdf] carries a lone
    surrogate, which UTF-8 cannot encode.  The run raises, and yet a file
    that did not exist before has appeared at the output path, empty. *)
Lemma failed_write_leaves_new_empty_file :
  ~ (forall (E : env) pdf_path output_path w e w',
       extract_pdf_text E pdf_path output_path w = (inl e, w') ->
       forall q, files w !! q = None -> files w' !! q = None).
Proof.
  intros Hclaim.
  specialize (Hclaim Sample.sample_env (Py.lit "odd.pdf") None Sample.sample_world
                _ _ eq_refl (Py.lit "odd.md")).
  vm_compute in Hclaim. by specialize (Hclaim eq_refl).
Qed.

(** C8, amended.  A run that raises leaves the files exactly as they were
    when the exception comes before the write: when the input is missing,
    when the library cannot open the document or extract a page, and
    when the destination cannot be opened.  When the exception comes from
    the write itself (every page was extracted, the destination was
    opened, and the text cannot be encoded), the destination has been
    created or truncated already and is not rolled back: it is left as an
    empty file, whether it existed before or not, and no other file
    changes.  These are the only cases, so the encoded Markdown text is
    never written by a run that raises. *)
Theorem failure_writes_no_content (E : env) pdf_path output_path w e w' :
  extract_pdf_text E pdf_path output_path w = (inl e, w') ->
  ((files w' = files w
    /\ (files w !! pdf_path = None
        \/ (exists data, files w !! pdf_path = Some data
                         /\ fitz_parse E pdf_path (Some data) = inl e)
        \/ (exists data texts rest,
              files w !! pdf_path = Some data
              /\ fitz_parse E pdf_path (Some data)
                 = inr ((PageText <$> texts) ++ PageError e :: rest))
        \/ (exists data texts,
              files w !! pdf_path = Some data
              /\ fitz_parse E pdf_path (Some data) = inr (PageText <$> texts)
              /\ open_w E (resolved_output pdf_path output_path) = Some e)))
   \/ (exists data texts,
         files w !! pdf_path = Some data
         /\ fitz_parse E pdf_path (Some data) = inr (PageText <$> texts)
         /\ open_w E (resolved_output pdf_path output_path) = None
         /\ Utf8.encode (spec_markdown (OsPath.basename pdf_path) (length texts) texts)
            = inl e
         /\ exn_type e = UnicodeEncodeError
         /\ files w' = <[resolved_output pdf_path output_path := []]> (files w)))
  /\ (files w !! pdf_path = None -> files w' = files w)
  /\ (forall data e0,
        files w !! pdf_path = Some data ->
        fitz_parse E pdf_path (Some data) = inl e0 -> files w' = files w)
  /\ (forall data texts e0 rest,
        files w !! pdf_path = Some data ->
        fitz_parse E pdf_path (Some data)
        = inr ((PageText <$> texts) ++ PageError e0 :: rest) ->
        files w' = files w)
  /\ (forall e0, open_w E (resolved_output pdf_path output_path) = Some e0 ->
        files w' = files w)
  /\ (forall data texts e0,
        files w !! pdf_path = Some data ->
        fitz_parse E pdf_path (Some data) = inr (PageText <$> texts) ->
        open_w E (resolved_output pdf_path output_path) = None ->
        Utf8.encode (spec_markdown (OsPath.basename pdf_path) (length texts) texts)
        = inl e0 ->
        e = e0
        /\ files w' = <[resolved_output pdf_path output_path := []]> (files w)
        /\ files w' !! resolved_output pdf_path output_path = Some []
        /\ forall q, q <> resolved_output pdf_path output_path ->
                     files w' !! q = files w !! q).
Proof.
  intros Hrun. pose proof (extract_pdf_text_outcome E pdf_path output_path w) as Hout.
  rewrite Hrun in Hout.
  inversion Hout; subst; cbn [files];
    (split; [first [left; split; [done|]; eauto 10
                   |right; eexists _, _; eauto 10 using encode_inl]|]);
    repeat split; intros; subst; unify_exits;
    rewrite ?lookup_insert_eq, ?lookup_insert_ne by done; done.
Qed.

(** The only page of the odd sample carries a lone surrogate: the write
    fails and leaves [odd.md], which did not exist, as an empty file. *)
Lemma failure_writes_no_content_witness :
  let run := extract_pdf_text Sample.sample_env (Py.lit "odd.pdf") None
               Sample.sample_world in
  files Sample.sample_world !! Py.lit "odd.md" = None
  /\ files run.2 = <[Py.lit "odd.md" := []]> (files Sample.sample_world).
Proof.
  intros run. split; [by vm_compute|].
  pose proof (failure_writes_no_content Sample.sample_env (Py.lit "odd.pdf") None
                Sample.sample_world) as H.
  edestruct H as (_ & _ & _ & _ & _ & Hwrite); [vm_compute; reflexivity|].
  edestruct (Hwrite Sample.odd_bytes [[0xD800]]) as (_ & Hfiles & _);
    [vm_compute; reflexivity ..|].
  exact Hfiles.
Defined.

(** * Failing invocations *)

(** C5 as stated fails: called without an input path, the script exits
    with status 1, but the line it prints on standard error is the usage
    line, which does not begin with ["ERROR: "]. *)
Lemma usage_line_is_not_an_error_line :
  ~ (forall (E : env) (fitz_installed : bool) (argv : list Py.str) w,
       exit_code (script E fitz_installed argv w).1 <> 0%nat ->
       exit_code (script E fitz_installed argv w).1 = 1%nat
       /\ Py.startswith (stderr (script E fitz_installed argv w).1) (Py.lit "ERROR: ")).
Proof.
  intros Hclaim.
  destruct (Hclaim Sample.sample_env true [Py.lit "pdf-to-text.py"] Sample.sample_world)
    as [_ [rest Hline]]; [by vm_compute|].
  vm_compute in Hline. discriminate Hline.
Qed.

(** C5, amended.  Every invocation that does not exit with status 0 exits
    with status 1, prints nothing on standard output and exactly one
    message, ended by a line feed, on standard error:
    - the usage line, when the library is there and the input path is
      missing from the command line;
    - ["ERROR: PyMuPDF not installed. Run: pip install pymupdf"], when the
      library is not there (whatever the arguments);
    - ["ERROR: "] followed by [str(e)], when [extract_pdf_text] raised [e]
      (missing input file, failure to open or read the document, failure
      to write). *)
Theorem failing_invocation_reports (E : env) (fitz_installed : bool)
    (argv : list Py.str) w :
  exit_code (script E fitz_installed argv w).1 <> 0%nat ->
  exit_code (script E fitz_installed argv w).1 = 1%nat
  /\ stdout (script E fitz_installed argv w).1 = []
  /\ ((fitz_installed = true /\ (length argv < 2)%nat
       /\ stderr (script E fitz_installed argv w).1
          = println (Py.lit "Usage: pdf-to-text.py <input.pdf> [output.md]"))
      \/ (fitz_installed = false
          /\ stderr (script E fitz_installed argv w).1
             = println (Py.lit "ERROR: "
                          ++ Py.lit "PyMuPDF not installed. Run: pip install pymupdf"))
      \/ (fitz_installed = true /\ (2 <= length argv)%nat
          /\ exists e w',
               extract_pdf_text E (nth 1 argv []) (argv !! 2%nat) w = (inl e, w')
               /\ stderr (script E fitz_installed argv w).1
                  = println (Py.lit "ERROR: " ++ exn_str e))).
Proof.
  unfold script. destruct fitz_installed; cycle 1.
  { intros _. cbn [fst exit_code stdout stderr]. do 2 (split; [done|]).
    right. left. by split. }
  destruct (Nat.lt_ge_cases (length argv) 2) as [Hlen|Hlen].
  { unfold main. destruct (Nat.ltb_spec (length argv) 2) as [_|?]; [|lia].
    intros _. cbn [fst exit_code stdout stderr]. do 2 (split; [done|]).
    by left. }
  rewrite main_reports by done.
  destruct (extract_pdf_text E (nth 1 argv []) (argv !! 2%nat) w) as [[e|p] w'];
    cbn [fst exit_code stdout stderr]; [|done].
  intros _. do 2 (split; [done|]). right. right. eauto 10.
Qed.

(** Asking for the damaged sample fails with the library's message. *)
Lemma failing_invocation_reports_witness :
  stderr (script Sample.sample_env true [Py.lit "pdf-to-text.py"; Py.lit "damaged.pdf"]
            Sample.sample_world).1
  = println (Py.lit "ERROR: cannot extract text").
Proof.
  pose proof (failing_invocation_reports Sample.sample_env true
                [Py.lit "pdf-to-text.py"; Py.lit "damaged.pdf"] Sample.sample_world) as H.
  destruct H as (_ & _ & [(_ & Hlen & _)|[(Hno & _)|(_ & _ & e & w' & Hrun & ->)]]).
  - vm_compute. discriminate.
  - vm_compute in Hlen. lia.
  - discriminate Hno.
  - vm_compute in Hrun. by injection Hrun as <- _.
Defined.

(** * The end of the file *)

(** C10 as stated fails: the sample report is converted, and the last byte
    of the file written is a line feed. *)
Lemma output_ends_with_line_feed :
  ~ (forall (E : env) pdf_path output_path w p w' encoded,
       extract_pdf_text E pdf_path output_path w = (inr p, w') ->
       files w' !! p = Some encoded ->
       ~ Py.endswith encoded [10]).
Proof.
  intros Hclaim.
  pose (run := extract_pdf_text Sample.sample_env (Py.lit "report.pdf") None
                 Sample.sample_world).
  destruct (files run.2 !! Py.lit "report.md") as [encoded|] eqn:Hfile;
    [|by vm_compute in Hfile].
  apply (Hclaim Sample.sample_env (Py.lit "report.pdf") None Sample.sample_world
           (Py.lit "report.md") run.2 encoded); [by vm_compute|exact Hfile|].
  apply last_Some. vm_compute in Hfile. by injection Hfile as <-.
Qed.

(** C10, amended.  The text a returning conversion writes is the lines
    joined by single line feeds, with no terminator added after the last
    line.  The last line is always the empty one (the blank line after the
    last emitted page block, or after the page-count line when every page
    is skipped), and the line before it ends with a character that is not
    white space.  So the text ends with exactly one line feed, and the
    file ends with exactly one line-feed byte. *)
Theorem output_ends_with_one_line_feed (E : env) pdf_path output_path w p w' :
  extract_pdf_text E pdf_path output_path w = (inr p, w') ->
  exists texts encoded,
    Utf8.encode (Py.join Py.LF (spec_lines (OsPath.basename pdf_path) (length texts) texts))
    = inr encoded
    /\ files w' !! p = Some encoded
    /\ last (spec_lines (OsPath.basename pdf_path) (length texts) texts) = Some []
    /\ (exists body c,
          Py.join Py.LF (spec_lines (OsPath.basename pdf_path) (length texts) texts)
          = body ++ [c] ++ Py.LF
          /\ Py.isspace c = false /\ c <> 10)
    /\ (exists front b, encoded = front ++ [b] ++ [10] /\ b <> 10).
Proof.
  intros Hrun.
  destruct (extract_returns _ _ _ _ _ _ Hrun)
    as (data & texts & encoded & _ & _ & _ & Henc & -> & ->).
  exists texts, encoded. split; [done|].
  split; [by cbn; rewrite lookup_insert_eq|].
  split.
  { destruct (spec_lines_end (OsPath.basename pdf_path) (length texts) texts)
      as (front & body & c & -> & _).
    change [body ++ [c]; []] with ([body ++ [c]] ++ [[]]).
    by rewrite app_assoc, last_snoc. }
  destruct (spec_markdown_end (OsPath.basename pdf_path) (length texts) texts)
    as (body & c & Hend & Hc).
  assert (c <> 10) as Hc10 by (intros ->; by rewrite isspace_LF in Hc).
  split; [by exists body, c|].
  unfold spec_markdown in Henc, Hend. rewrite Hend in Henc.
  by eapply encode_single_trailing_LF.
Qed.

(** The rendering of the sample report ends with one line feed. *)
Lemma output_ends_with_one_line_feed_witness :
  exists texts encoded,
    Utf8.encode (Py.join Py.LF (spec_lines (OsPath.basename (Py.lit "report.pdf"))
                                  (length texts) texts))
    = inr encoded
    /\ files (extract_pdf_text Sample.sample_env (Py.lit "report.pdf") None
                Sample.sample_world).2 !! Py.lit "report.md" = Some encoded
    /\ last (spec_lines (OsPath.basename (Py.lit "report.pdf")) (length texts) texts)
       = Some []
    /\ (exists body c,
          Py.join Py.LF (spec_lines (OsPath.basename (Py.lit "report.pdf"))
                           (length texts) texts)
          = body ++ [c] ++ Py.LF
          /\ Py.isspace c = false /\ c <> 10)
    /\ (exists front b, encoded = front ++ [b] ++ [10] /\ b <> 10).
Proof.
  apply (output_ends_with_one_line_feed Sample.sample_env (Py.lit "report.pdf") None
           Sample.sample_world (Py.lit "report.md") _).
  vm_compute. reflexivity.
Defined.

(** * Further properties of the script *)

(** ** Trimming *)

Section Trimming.
Import Py.

Lemma lstrip_split (s : str) :
  exists pre, s = pre ++ lstrip s /\ Forall (fun c => isspace c = true) pre.
Proof.
  induction s as [|c s (pre & Hs & Hpre)]; [by exists []|].
  cbn [lstrip]. destruct (isspace c) eqn:Hc.
  - exists (c :: pre). split; [by rewrite Hs at 1|by constructor].
  - by exists [].
Qed.

Lemma rstrip_split (s : str) :
  exists suf, s = rstrip s ++ suf /\ Forall (fun c => isspace c = true) suf.
Proof.
  unfold rstrip. destruct (lstrip_split (reverse s)) as (pre & Hs & Hpre).
  exists (reverse pre). split.
  - rewrite <- reverse_app, <- Hs. by rewrite reverse_involutive.
  - by apply Forall_reverse.
Qed.

Lemma lstrip_fixed (s : str) :
  (forall c r, s = c :: r -> isspace c = false) -> lstrip s = s.
Proof.
  destruct s as [|c s]; [done|]. intros H. cbn [lstrip].
  by rewrite (H c s eq_refl).
Qed.

Lemma rstrip_fixed (s : str) :
  (forall body c, s = body ++ [c] -> isspace c = false) -> rstrip s = s.
Proof.
  intros H. unfold rstrip. rewrite lstrip_fixed; [apply reverse_involutive|].
  intros c r Hr. apply (H (reverse r) c).
  by rewrite <- (reverse_involutive s), Hr, reverse_cons.
Qed.

Lemma strip_head (s : str) c r : strip s = c :: r -> isspace c = false.
Proof.
  unfold strip. intros Hs.
  destruct (rstrip_split (lstrip s)) as (suf & Hcut & _).
  rewrite Hs in Hcut. by eapply lstrip_head.
Qed.

Lemma strip_last_char (s : str) body c : strip s = body ++ [c] -> isspace c = false.
Proof.
  intros Hs. destruct (strip_last s) as (body' & c' & Hs' & Hc').
  { rewrite Hs. by destruct body. }
  rewrite Hs in Hs'. by apply app_inj_tail in Hs' as [_ ->].
Qed.

End Trimming.

(** ** One turn of the page loop *)

(** One turn of the loop keeps of the page's text exactly what lies
    between its first and its last character that is not white space:
    the text is a run of white space, the kept part, and a run of white
    space; the kept part neither begins nor ends with white space; when
    it is empty nothing is appended, otherwise the five lines of the
    block are, with the kept part as the fourth.  The lines collected
    before stay in front and the world is not touched. *)
Theorem loop_turn_keeps_inner_text i (text : Py.str) (lines : list Py.str) w :
  exists before kept after,
    text = before ++ kept ++ after
    /\ Forall (fun c => Py.isspace c = true) before
    /\ Forall (fun c => Py.isspace c = true) after
    /\ (forall c r, kept = c :: r -> Py.isspace c = false)
    /\ (forall body c, kept = body ++ [c] -> Py.isspace c = false)
    /\ page_loop i [PageText text] lines w
       = (inr (if Py.truthy kept
               then lines ++ [Py.lit "---"; Py.lit "## Page " ++ Py.str_of_nat (i + 1);
                              []; kept; []]
               else lines), w).
Proof.
  destruct (lstrip_split text) as (before & Hl & Hbefore).
  destruct (rstrip_split (Py.lstrip text)) as (after & Hr & Hafter).
  exists before, (Py.strip text), after.
  split; [by rewrite Hl at 1; rewrite Hr at 1|].
  split; [done|]. split; [done|].
  split; [apply strip_head|]. split; [apply strip_last_char|].
  rewrite page_loop_step. cbn [page_loop]. unfold mret, M_ret, page_block, page_heading.
  rewrite Nat.add_1_r. destruct (Py.strip text); cbn [Py.truthy]; by rewrite ?app_nil_r.
Qed.

(** The loop over a document cut in two is the loop over the first part
    followed by the loop over the second part, which goes on with the
    lines and the page number the first part ended at; an exception in
    the first part ends both. *)
Theorem page_loop_app (pages1 pages2 : list Page) : forall i (lines : list Py.str),
  page_loop i (pages1 ++ pages2) lines
  = (page_loop i pages1 lines ≫= page_loop (i + length pages1) pages2).
Proof.
  induction pages1 as [|[text|e] pages1 IH]; intros i lines.
  - cbn [app length page_loop]. rewrite Nat.add_0_r. reflexivity.
  - cbn [app length page_loop get_text]. unfold mbind at 1 3. unfold M_bind at 1 3.
    cbn [mret M_ret]. rewrite IH. by rewrite Nat.add_succ_comm.
  - reflexivity.
Qed.

(** ** Which exception comes out *)

(** When the document opens and some page cannot be read, the routine
    raises the exception of the first such page, whatever the later pages
    and the destination are like: no file changes and the destination is
    never opened.  From the command line the exception's message follows
    ["ERROR: "] on standard error and the status is 1. *)
Theorem first_unreadable_page_decides (E : env) pdf_path output_path w
    data texts e rest :
  files w !! pdf_path = Some data ->
  fitz_parse E pdf_path (Some data) = inr ((PageText <$> texts) ++ PageError e :: rest) ->
  (extract_pdf_text E pdf_path output_path w).1 = inl e
  /\ files (extract_pdf_text E pdf_path output_path w).2 = files w
  /\ forall argv : list Py.str,
       (2 <= length argv)%nat -> nth 1 argv [] = pdf_path ->
       argv !! 2%nat = output_path ->
       (script E true argv w).1
       = Process [] (println (Py.lit "ERROR: " ++ exn_str e)) 1.
Proof.
  intros Hfile Hparse.
  assert (forall out, extract_pdf_text E pdf_path out w
          = (inl e, World (files w)
                      (with_document pdf_path w
                         ((PageText <$> texts) ++ PageError e :: rest) false))) as Hrun.
  { intros out. by eapply outcome_unique, exit_page_raises. }
  rewrite Hrun. split; [done|]. split; [done|].
  intros argv Hlen Hpdf Hout. unfold script.
  by rewrite main_reports, Hpdf, Hrun by done.
Qed.

(** The second page of the damaged sample. *)
Lemma first_unreadable_page_decides_witness :
  (extract_pdf_text Sample.sample_env (Py.lit "damaged.pdf") None Sample.sample_world).1
  = inl (Exn FitzError (Py.lit "cannot extract text")).
Proof.
  refine (proj1 (first_unreadable_page_decides Sample.sample_env (Py.lit "damaged.pdf")
                   None Sample.sample_world Sample.damaged_bytes [Py.lit "Intro"]
                   (Exn FitzError (Py.lit "cannot extract text")) [] _ _)).
  - vm_compute. reflexivity.
  - vm_compute. reflexivity.
Defined.

(** When the document opens, every page is read and the destination
    cannot be opened, the exception of [open] comes out as it is: the
    script prints its message after ["ERROR: "] and exits with status 1,
    no file has changed, and the one document the run opened has been
    closed before the attempt to write. *)
Theorem unwritable_destination_reported (E : env) (argv : list Py.str) w
    data texts e :
  (2 <= length argv)%nat ->
  files w !! nth 1 argv [] = Some data ->
  fitz_parse E (nth 1 argv []) (Some data) = inr (PageText <$> texts) ->
  open_w E (resolved_output (nth 1 argv []) (argv !! 2%nat)) = Some e ->
  script E true argv w
  = (Process [] (println (Py.lit "ERROR: " ++ exn_str e)) 1,
     World (files w)
           (docs w ++ [Build_Document (nth 1 argv []) (PageText <$> texts) true])).
Proof.
  intros Hlen Hfile Hparse Hdest. unfold script. rewrite main_reports by done.
  by erewrite outcome_unique by (by eapply exit_destination_raises).
Qed.

(** The sample report sent below a directory that does not exist. *)
Lemma unwritable_destination_reported_witness :
  script Sample.sample_env true
    [Py.lit "pdf-to-text.py"; Py.lit "report.pdf"; Py.lit "/nowhere/out.md"]
    Sample.sample_world
  = (Process []
       (println (Py.lit "ERROR: "
                   ++ Py.lit "[Errno 2] No such file or directory: '/nowhere/out.md'")) 1,
     World (files Sample.sample_world)
           [Build_Document (Py.lit "report.pdf")
              (PageText <$> [Py.lit "Hello" ++ Py.LF; Py.lit "  " ++ Py.LF; Py.lit " World"])
              true]).
Proof.
  apply (unwritable_destination_reported Sample.sample_env
           [Py.lit "pdf-to-text.py"; Py.lit "report.pdf"; Py.lit "/nowhere/out.md"]
           Sample.sample_world Sample.report_bytes
           [Py.lit "Hello" ++ Py.LF; Py.lit "  " ++ Py.LF; Py.lit " World"]
           (Exn FileNotFoundError
              (Py.lit "[Errno 2] No such file or directory: '/nowhere/out.md'"))).
  - vm_compute. lia.
  - vm_compute. reflexivity.
  - vm_compute. reflexivity.
  - vm_compute. reflexivity.
Defined.

(** ** Document objects *)

(** A run never touches the document objects that were there before and
    hands out at most one new one, opened from the input path.  The new
    one is closed when the routine returns; it is left open only when the
    routine raises the exception of one of its pages. *)
Theorem run_opens_at_most_one_document (E : env) pdf_path output_path w :
  exists opened,
    docs (extract_pdf_text E pdf_path output_path w).2 = docs w ++ opened
    /\ (length opened <= 1)%nat
    /\ (forall d, d ∈ opened -> doc_name d = pdf_path)
    /\ (forall p, (extract_pdf_text E pdf_path output_path w).1 = inr p ->
          exists pages, opened = [Build_Document pdf_path pages true])
    /\ (forall d, d ∈ opened -> is_closed d = false ->
          exists e, PageError e ∈ doc_pages d
                    /\ (extract_pdf_text E pdf_path output_path w).1 = inl e).
Proof.
  pose proof (extract_pdf_text_outcome E pdf_path output_path w) as Hout.
  destruct (extract_pdf_text E pdf_path output_path w) as [res w'].
  inversion Hout; subst; cbn [fst snd docs]; unfold with_document.
  1,2: exists []; rewrite app_nil_r;
       (split; [done|]); (split; [cbn; lia|]);
       (split; [by intros d ?%elem_of_nil|]);
       (split; [done|by intros d ?%elem_of_nil]).
  all: eexists [_]; (split; [done|]); (split; [cbn; lia|]);
       (split; [by intros d ->%list_elem_of_singleton|]);
       (split; [by (done || eauto)|]);
       intros d ->%list_elem_of_singleton; cbn [is_closed doc_pages]; try done.
  intros _. exists e. split; [|done]. rewrite elem_of_app. right. by left.
Qed.

(** ** Paths *)

Section PathProperties.
Import Py OsPath.

(** The path is a directory part, empty or ending with a slash, followed
    by the base name, and the base name holds no slash. *)
Lemma basename_split (p : str) :
  exists dir,
    p = dir ++ basename p
    /\ (sep ∉ basename p)
    /\ (dir = [] \/ exists d, dir = d ++ [sep])
    /\ dir = slice_to p (rfind sep p + 1).
Proof.
  unfold basename, slice_from, slice_to.
  exists (take (Z.to_nat (rfind sep p + 1)) p).
  split; [by rewrite take_drop|].
  destruct (rfind_spec sep p) as [[Hnot ->]|(k & Hk & Hafter & ->)].
  - cbn. split; [done|]. split; [by left|done].
  - replace (Z.to_nat (Z.of_nat k + 1)) with (S k) by lia.
    split; [done|]. split; [|done]. right. exists (take k p). by apply take_S_r.
Qed.

(** Without an output path the result goes beside the input: the default
    output path has the directory part of the input path, followed by a
    name without slash that ends with [.md]. *)
Theorem default_output_beside_input (p : str) :
  exists dir name,
    p = dir ++ basename p
    /\ resolved_output p None = dir ++ name
    /\ (sep ∉ name)
    /\ endswith name (lit ".md")
    /\ (dir = [] \/ exists d, dir = d ++ [sep]).
Proof.
  destruct (basename_split p) as (dir & Hp & Hbase & Hdir & Hcut).
  assert (sep ∉ lit ".md") as Hmd.
  { intros Hin. vm_compute in Hin. repeat (apply elem_of_cons in Hin as [Hin|Hin];
      [discriminate Hin|]). by apply elem_of_nil in Hin. }
  unfold resolved_output, splitext.
  destruct (rfind sep p <? rfind extsep p)%Z eqn:Hlt; cycle 1.
  { exists dir, (basename p ++ lit ".md"). cbn [fst].
    split; [done|]. split; [by rewrite app_assoc, <- Hp|].
    split; [by apply not_elem_of_app|]. split; [by eexists|done]. }
  destruct (has_non_dot _); cycle 1.
  { exists dir, (basename p ++ lit ".md"). cbn [fst].
    split; [done|]. split; [by rewrite app_assoc, <- Hp|].
    split; [by apply not_elem_of_app|]. split; [by eexists|done]. }
  apply Z.ltb_lt in Hlt. cbn [fst].
  set (n := Z.to_nat (rfind sep p + 1)) in *.
  exists dir, (take (Z.to_nat (rfind extsep p) - n) (basename p) ++ lit ".md").
  split; [done|]. split.
  - rewrite app_assoc. f_equal. unfold slice_to.
    replace (Z.to_nat (rfind extsep p)) with (n + (Z.to_nat (rfind extsep p) - n))%nat
      at 1 by (destruct (rfind_spec sep p) as [[_ ?]|(? & _ & _ & ?)]; lia).
    rewrite <- take_take_drop. by rewrite Hcut.
  - split; [|split; [by eexists|done]].
    apply not_elem_of_app. split; [|done].
    intros Hin. by apply Hbase, (subseteq_take (Z.to_nat (rfind extsep p) - n)).
Qed.

(** Without an output path, the result goes to the input path itself
    exactly when the extension of the input path is [.md] already. *)
Theorem default_output_is_input_iff (p : str) :
  resolved_output p None = p <-> (splitext p).2 = lit ".md".
Proof.
  destruct (splitext_spec p) as [Hcut _]. unfold resolved_output. split.
  - intros H. apply (app_inv_head (splitext p).1). by rewrite <- Hcut.
  - intros H. by rewrite <- H.
Qed.

End PathProperties.

(** The title of the written file shows the last component of the input
    path only: the input path is a directory part, empty or ending with a
    slash, followed by a name without slash, and the text written begins
    with ["# "], that name and a line feed. *)
Theorem title_is_last_path_component (E : env) pdf_path output_path w p w' :
  extract_pdf_text E pdf_path output_path w = (inr p, w') ->
  exists dir name rest encoded,
    pdf_path = dir ++ name
    /\ (OsPath.sep ∉ name)
    /\ (dir = [] \/ exists d, dir = d ++ [OsPath.sep])
    /\ Utf8.encode (Py.lit "# " ++ name ++ Py.LF ++ rest) = inr encoded
    /\ files w' !! p = Some encoded.
Proof.
  intros Hrun.
  destruct (extract_returns _ _ _ _ _ _ Hrun)
    as (data & texts & encoded & _ & _ & _ & Henc & -> & ->).
  destruct (basename_split pdf_path) as (dir & Hp & Hbase & Hdir & _).
  exists dir, (OsPath.basename pdf_path),
    (Py.join Py.LF ([] :: (Py.lit "*" ++ Py.str_of_nat (length texts) ++ Py.lit " pages*")
                     :: [] :: concat (imap page_block texts))),
    encoded.
  split; [done|]. split; [done|]. split; [done|].
  split; [|by cbn [files]; rewrite lookup_insert_eq].
  rewrite <- Henc. reflexivity.
Qed.

(** The sample report kept in a directory. *)
Lemma title_is_last_path_component_witness :
  let w := World {[ Py.lit "docs/2024/report.pdf" := Sample.report_bytes ]} [] in
  exists dir name rest encoded,
    Py.lit "docs/2024/report.pdf" = dir ++ name
    /\ (OsPath.sep ∉ name)
    /\ (dir = [] \/ exists d, dir = d ++ [OsPath.sep])
    /\ Utf8.encode (Py.lit "# " ++ name ++ Py.LF ++ rest) = inr encoded
    /\ files (extract_pdf_text Sample.sample_env (Py.lit "docs/2024/report.pdf") None w).2
         !! Py.lit "docs/2024/report.md" = Some encoded.
Proof.
  intros w.
  apply (title_is_last_path_component Sample.sample_env (Py.lit "docs/2024/report.pdf")
           None w (Py.lit "docs/2024/report.md") _).
  vm_compute. reflexivity.
Defined.

(** Converting an input whose extension is [.md], without an output
    path, replaces the input itself by its rendering. *)
Theorem markdown_named_input_is_overwritten (E : env) pdf_path w p w' :
  (OsPath.splitext pdf_path).2 = Py.lit ".md" ->
  extract_pdf_text E pdf_path None w = (inr p, w') ->
  p = pdf_path
  /\ exists texts encoded,
       Utf8.encode (spec_markdown (OsPath.basename pdf_path) (length texts) texts)
       = inr encoded
       /\ files w' !! pdf_path = Some encoded.
Proof.
  intros Hext Hrun.
  destruct (extract_returns _ _ _ _ _ _ Hrun)
    as (data & texts & encoded & Hfile & Hparse & _ & Henc & -> & ->).
  assert (resolved_output pdf_path None = pdf_path) as ->.
  { destruct (splitext_spec pdf_path) as [Hcut _].
    unfold resolved_output. by rewrite <- Hext. }
  split; [done|]. exists texts, encoded.
  split; [done|]. cbn [files]. apply lookup_insert_eq.
Qed.

(** A one-page document stored as [notes.md]. *)
Lemma markdown_named_input_is_overwritten_witness :
  let E := Env (fun _ _ => inr [PageText (Py.lit "text")]) (fun _ => None) in
  let w := World {[ Py.lit "notes.md" := Py.lit "%PDF-1.4" ]} [] in
  Py.lit "notes.md" = Py.lit "notes.md"
  /\ exists texts encoded,
       Utf8.encode (spec_markdown (OsPath.basename (Py.lit "notes.md")) (length texts) texts)
       = inr encoded
       /\ files (extract_pdf_text E (Py.lit "notes.md") None w).2 !! Py.lit "notes.md"
          = Some encoded.
Proof.
  intros E w.
  apply (markdown_named_input_is_overwritten E (Py.lit "notes.md") w
           (Py.lit "notes.md") _).
  - vm_compute. reflexivity.
  - vm_compute. reflexivity.
Defined.

(** ** Which characters reach the file *)

Section Characters.
Import Py.

(** A property of characters that every ASCII character has. *)
Variable P : N -> Prop.
Hypothesis P_ascii : forall c, c < 0x80 -> P c.

Lemma Forall_digits d : Forall P (uint_digits d).
Proof. induction d; cbn [uint_digits]; constructor; try done; by apply P_ascii. Qed.

Lemma Forall_str_of_nat n : Forall P (str_of_nat n).
Proof. apply Forall_digits. Qed.

Lemma Forall_ascii_literal (l : str) : Forall (fun c => c < 0x80) l -> Forall P l.
Proof. intros H. eapply Forall_impl; [exact H|exact P_ascii]. Qed.

Ltac ascii_literal :=
  apply Forall_ascii_literal; vm_compute;
  repeat (constructor; [reflexivity|]); constructor.

Lemma Forall_join (sep : str) (xs : list str) :
  Forall P sep -> Forall P (join sep xs) <-> Forall (Forall P) xs.
Proof.
  intros Hsep. induction xs as [|x xs IH]; [by split; constructor|].
  destruct xs as [|y xs].
  - cbn [join]. rewrite Forall_singleton. done.
  - change (join sep (x :: y :: xs)) with (x ++ sep ++ join sep (y :: xs)).
    rewrite !Forall_app, IH, (Forall_cons _ x). tauto.
Qed.

Lemma Forall_page_blocks (texts : list str) :
  Forall (Forall P) (concat (imap page_block texts))
  <-> Forall (fun t => Forall P (strip t)) texts.
Proof.
  induction texts as [|t texts IH] using rev_ind; [by split; constructor|].
  rewrite imap_app, concat_app, !Forall_app, IH. cbn [imap concat].
  rewrite app_nil_r, Forall_singleton. unfold page_block, page_heading.
  destruct (strip t) as [|c s] eqn:Ht.
  - split; [intros [? _]|intros [? _]]; (split; [done|constructor]).
  - rewrite !Forall_cons, Forall_app.
    assert (Forall P (lit "---")) by ascii_literal.
    assert (Forall P (lit "## Page ")) by ascii_literal.
    pose proof (Forall_str_of_nat (S (length texts + 0))).
    pose proof (Forall_nil_2 P). pose proof (Forall_nil_2 (Forall P)). tauto.
Qed.

(** Every character of the Markdown text has the property exactly when
    every character of the base name and of every trimmed page text has
    it. *)
Lemma Forall_spec_markdown (B : str) (n : nat) (texts : list str) :
  Forall P (spec_markdown B n texts)
  <-> Forall P B /\ Forall (fun t => Forall P (strip t)) texts.
Proof.
  unfold spec_markdown, spec_lines, header_lines.
  rewrite Forall_join by ascii_literal.
  rewrite Forall_app, Forall_page_blocks, !Forall_cons, !Forall_app.
  assert (Forall P (lit "# ")) by ascii_literal.
  assert (Forall P (lit "*")) by ascii_literal.
  assert (Forall P (lit " pages*")) by ascii_literal.
  pose proof (Forall_str_of_nat n).
  pose proof (Forall_nil_2 P). pose proof (Forall_nil_2 (Forall P)). tauto.
Qed.

End Characters.

Section WrittenBytes.
Import Py.

Lemma strip_split (t : str) :
  exists before after,
    t = before ++ strip t ++ after
    /\ Forall (fun c => isspace c = true) before
    /\ Forall (fun c => isspace c = true) after.
Proof.
  destruct (lstrip_split t) as (before & Hl & Hbefore).
  destruct (rstrip_split (lstrip t)) as (after & Hr & Hafter).
  exists before, after. split; [|done]. rewrite Hl at 1. by rewrite Hr at 1.
Qed.

Lemma Forall_strip (Q : N -> Prop) (t : str) : Forall Q t -> Forall Q (strip t).
Proof.
  destruct (strip_split t) as (before & after & Ht & _). rewrite Ht at 1.
  rewrite !Forall_app. tauto.
Qed.

Lemma isspace_not_surrogate c : isspace c = true -> Utf8.is_surrogate c = false.
Proof.
  unfold isspace, Utf8.is_surrogate.
  rewrite !orb_true_iff, !andb_true_iff, andb_false_iff, !N.leb_le, !N.eqb_eq,
    N.leb_gt. lia.
Qed.

Lemma ascii_not_surrogate c : c < 0x80 -> Utf8.is_surrogate c = false.
Proof. unfold Utf8.is_surrogate. rewrite andb_false_iff, N.leb_gt. lia. Qed.

Lemma strip_surrogate_free (t : str) :
  Forall (fun c => Utf8.is_surrogate c = false) (strip t)
  <-> Forall (fun c => Utf8.is_surrogate c = false) t.
Proof.
  split; [|apply Forall_strip].
  destruct (strip_split t) as (before & after & Ht & Hb & Ha). intros Hs.
  rewrite Ht, !Forall_app. split; [|split; [done|]].
  - eapply Forall_impl; [exact Hb|]. apply isspace_not_surrogate.
  - eapply Forall_impl; [exact Ha|]. apply isspace_not_surrogate.
Qed.

Lemma strip_blank (t : str) : Forall (fun c => isspace c = true) t -> strip t = [].
Proof.
  intros Ht. unfold strip.
  assert (lstrip t = []) as ->; [|done].
  induction Ht as [|c t Hc _ IH]; [done|]. cbn [lstrip]. by rewrite Hc.
Qed.

Lemma encode_ascii (s : str) : Forall (fun c => c < 0x80) s -> Utf8.encode s = inr s.
Proof.
  intros Hs. apply encode_inr. split.
  - eapply Forall_impl; [exact Hs|]. apply ascii_not_surrogate.
  - induction Hs as [|c s Hc _ IH]; [done|]. cbn [flat_map].
    unfold Utf8.encode_char at 1. apply N.ltb_lt in Hc. rewrite Hc. cbn [app].
    by rewrite <- IH.
Qed.

(** The text can be encoded exactly when neither the base name nor any
    page text holds a lone surrogate. *)
Lemma spec_markdown_encodable (B : str) (n : nat) (texts : list str) :
  (exists encoded, Utf8.encode (spec_markdown B n texts) = inr encoded)
  <-> Forall (fun c => Utf8.is_surrogate c = false) B
      /\ Forall (Forall (fun c => Utf8.is_surrogate c = false)) texts.
Proof.
  rewrite <- (Forall_iff _ texts _ strip_surrogate_free).
  rewrite <- (Forall_spec_markdown _ ascii_not_surrogate B n texts).
  split.
  - by intros [encoded [? _]%encode_inr].
  - intros H. eexists. by apply encode_inr.
Qed.

End WrittenBytes.

(** When the input exists and the library opens it and reads every page,
    the routine returns exactly when the destination can be opened and
    neither the base name of the input path nor any page text holds a
    lone surrogate (a code point from U+D800 to U+DFFF): those are the
    only texts the UTF-8 write refuses. *)
Theorem conversion_returns_iff (E : env) pdf_path output_path w data texts :
  files w !! pdf_path = Some data ->
  fitz_parse E pdf_path (Some data) = inr (PageText <$> texts) ->
  (exists p w', extract_pdf_text E pdf_path output_path w = (inr p, w'))
  <-> open_w E (resolved_output pdf_path output_path) = None
      /\ Forall (fun c => Utf8.is_surrogate c = false) (OsPath.basename pdf_path)
      /\ Forall (Forall (fun c => Utf8.is_surrogate c = false)) texts.
Proof.
  intros Hfile Hparse.
  rewrite <- (spec_markdown_encodable (OsPath.basename pdf_path) (length texts) texts).
  split.
  - intros (p & w' & Hrun).
    destruct (extract_returns _ _ _ _ _ _ Hrun)
      as (data' & texts' & encoded & Hfile' & Hparse' & Hdest & Henc & _).
    unify_exits. split; [done|]. by exists encoded.
  - intros (Hdest & encoded & Henc). eexists _, _.
    by eapply extract_succeeds.
Qed.

(** The sample report meets the three conditions, so its conversion
    returns. *)
Lemma conversion_returns_iff_witness :
  exists p w',
    extract_pdf_text Sample.sample_env (Py.lit "report.pdf") None Sample.sample_world
    = (inr p, w').
Proof.
  apply (conversion_returns_iff Sample.sample_env (Py.lit "report.pdf") None
           Sample.sample_world Sample.report_bytes
           [Py.lit "Hello" ++ Py.LF; Py.lit "  " ++ Py.LF; Py.lit " World"]).
  - vm_compute. reflexivity.
  - vm_compute. reflexivity.
  - split; [by vm_compute|]. split.
    + vm_compute. repeat constructor.
    + vm_compute. repeat constructor.
Defined.

(** When the base name of the input path and every page text are ASCII,
    the bytes of the file are the characters of the Markdown text, one
    byte each. *)
Theorem ascii_text_written_as_is (E : env) pdf_path output_path w p w' data texts :
  files w !! pdf_path = Some data ->
  fitz_parse E pdf_path (Some data) = inr (PageText <$> texts) ->
  Forall (fun c => c < 0x80) (OsPath.basename pdf_path) ->
  Forall (Forall (fun c => c < 0x80)) texts ->
  extract_pdf_text E pdf_path output_path w = (inr p, w') ->
  files w' !! p = Some (spec_markdown (OsPath.basename pdf_path) (length texts) texts).
Proof.
  intros Hfile Hparse Hbase Htexts Hrun.
  destruct (extract_returns _ _ _ _ _ _ Hrun)
    as (data' & texts' & encoded & Hfile' & Hparse' & _ & Henc & -> & ->).
  unify_exits. cbn [files]. rewrite lookup_insert_eq. f_equal.
  rewrite encode_ascii in Henc; [by injection Henc|].
  apply (Forall_spec_markdown (fun c => c < 0x80)); [done|]. split; [done|].
  eapply Forall_impl; [exact Htexts|]. intros t. apply Forall_strip.
Qed.

(** The sample report is ASCII throughout. *)
Lemma ascii_text_written_as_is_witness :
  files (extract_pdf_text Sample.sample_env (Py.lit "report.pdf") None
           Sample.sample_world).2 !! Py.lit "report.md"
  = Some (spec_markdown (OsPath.basename (Py.lit "report.pdf")) 3
            [Py.lit "Hello" ++ Py.LF; Py.lit "  " ++ Py.LF; Py.lit " World"]).
Proof.
  apply (ascii_text_written_as_is Sample.sample_env (Py.lit "report.pdf") None
           Sample.sample_world (Py.lit "report.md") _ Sample.report_bytes
           [Py.lit "Hello" ++ Py.LF; Py.lit "  " ++ Py.LF; Py.lit " World"]).
  - vm_compute. reflexivity.
  - vm_compute. reflexivity.
  - vm_compute. repeat (constructor; [reflexivity|]). constructor.
  - vm_compute. repeat (constructor; [repeat (constructor; [reflexivity|]); constructor|]).
    constructor.
  - vm_compute. reflexivity.
Defined.

(** ** Documents without text *)

Lemma blank_pages_give_no_block (texts : list Py.str) :
  Forall (Forall (fun c => Py.isspace c = true)) texts ->
  concat (imap page_block texts) = [].
Proof.
  induction texts as [|t texts IH] using rev_ind; [done|].
  intros [Htexts [Ht _]%Forall_cons]%Forall_app.
  rewrite imap_app, concat_app, IH by done. cbn [imap concat app].
  unfold page_block. by rewrite strip_blank.
Qed.

(** When every page is blank (only white space, as for scanned pages), or
    the document has no page at all, a returning conversion writes the
    title and the page count and nothing else: the title line, an empty
    line and the page-count line, each ended by a line feed. *)
Theorem blank_document_gives_header_only (E : env) pdf_path output_path w p w'
    data texts :
  files w !! pdf_path = Some data ->
  fitz_parse E pdf_path (Some data) = inr (PageText <$> texts) ->
  Forall (Forall (fun c => Py.isspace c = true)) texts ->
  extract_pdf_text E pdf_path output_path w = (inr p, w') ->
  exists encoded,
    Utf8.encode (Py.lit "# " ++ OsPath.basename pdf_path ++ Py.LF ++ Py.LF
                 ++ Py.lit "*" ++ Py.str_of_nat (length texts) ++ Py.lit " pages*"
                 ++ Py.LF)
    = inr encoded
    /\ files w' !! p = Some encoded.
Proof.
  intros Hfile Hparse Hblank Hrun.
  destruct (extract_returns _ _ _ _ _ _ Hrun)
    as (data' & texts' & encoded & Hfile' & Hparse' & _ & Henc & -> & ->).
  unify_exits. exists encoded. cbn [files]. rewrite lookup_insert_eq.
  split; [|done]. rewrite <- Henc. f_equal.
  unfold spec_markdown, spec_lines, header_lines.
  rewrite blank_pages_give_no_block by done. cbn [app Py.join].
  by rewrite <- !app_assoc.
Qed.

(** A scan of two pages without extractable text. *)
Lemma blank_document_gives_header_only_witness :
  let E := Env (fun _ _ => inr [PageText (Py.lit " "); PageText Py.LF]) (fun _ => None) in
  let w := World {[ Py.lit "scan.pdf" := Py.lit "%PDF-1.4" ]} [] in
  exists encoded,
    Utf8.encode (Py.lit "# " ++ OsPath.basename (Py.lit "scan.pdf") ++ Py.LF ++ Py.LF
                 ++ Py.lit "*" ++ Py.str_of_nat 2 ++ Py.lit " pages*" ++ Py.LF)
    = inr encoded
    /\ files (extract_pdf_text E (Py.lit "scan.pdf") None w).2 !! Py.lit "scan.md"
       = Some encoded.
Proof.
  intros E w.
  apply (blank_document_gives_header_only E (Py.lit "scan.pdf") None w
           (Py.lit "scan.md") _ (Py.lit "%PDF-1.4") [Py.lit " "; Py.LF]).
  - vm_compute. reflexivity.
  - vm_compute. reflexivity.
  - vm_compute. repeat constructor.
  - vm_compute. reflexivity.
Defined.

(** ** What a caller of the script can rely on *)

